(** * Authentication flow of the TanStack Start basic-auth application

    A shallow embedding of the authentication code of the repository:

    - [app/utils/prisma.ts]: [hashPassword];
    - [app/routes/_authed.tsx], which exists in two variants: the current one
      (server functions built with [createServerFn({ method }).validator(..)
      .handler(..)], module [Current] below) and an older one
      ([createServerFn('POST', fn)], module [Legacy] below);
    - [app/routes/__root.tsx] ([beforeLoad]), [app/utils/session.ts],
      [app/routes/_authed/home.tsx] (the loader).

    Server functions are modelled in a state-and-exception monad over a
    [World] made of the user table and the session of the one client that
    issues the request.  A thrown exception keeps the effects performed
    before it, as in JavaScript.  [await] is sequencing.

    Strings are sequences of 8-bit characters; [String.length] is the
    JavaScript [length] on ASCII data. *)

From Stdlib Require Import String Ascii List ZArith NArith Lia Bool.
From Stdlib Require Import Strings.Byte.
Import ListNotations.
Local Open Scope string_scope.
Set Warnings "-register-all".

(** ** JavaScript values *)

(** The two kinds of issue that the schemas of [_authed.tsx] can report:
    [z.string().email()] and [z.string().min(n)]. *)
Inductive ZodIssue : Type :=
| invalid_string (validation : string) (path : string)
| too_small (minimum : nat) (path : string).

Inductive Value : Type :=
| VUndefined
| VNull
| VBool (b : bool)
| VNum (n : Z)
| VStr (s : string)
| VIssues (issues : list ZodIssue)
| VObj (fields : list (string * Value)).

(** JavaScript truthiness, as used by [!x] and [x || y]. *)
Definition truthy (v : Value) : bool :=
  match v with
  | VUndefined | VNull => false
  | VBool b => b
  | VNum n => negb (n =? 0)%Z
  | VStr s => negb (s =? "")
  | VIssues _ | VObj _ => true
  end.

Fixpoint assoc (k : string) (fields : list (string * Value)) : option Value :=
  match fields with
  | [] => None
  | (k', v) :: rest => if k' =? k then Some v else assoc k rest
  end.

(** Property read [v.k]: [undefined] when the property is absent. *)
Definition get_prop (k : string) (v : Value) : Value :=
  match v with
  | VObj fields => match assoc k fields with Some x => x | None => VUndefined end
  | _ => VUndefined
  end.

(** [Object.keys(v)]. *)
Definition keys (v : Value) : list string :=
  match v with
  | VObj fields => map fst fields
  | _ => []
  end.

(** Truthiness of an optional string ([undefined] when absent). *)
Definition truthy_str (s : option string) : bool :=
  match s with
  | None => false
  | Some s => negb (s =? "")
  end.

(** ** Data model *)

(** A row of the [User] table.  The type of [id] is fixed by the Prisma
    schema; the program only copies it, so it is kept as a JavaScript value. *)
Module User.
Record t : Type := mk {
  id : Value;
  email : string;
  password : string;
  role : string;
  first_name : string;
  last_name : string
}.
End User.

(** [session.data] of type [Partial<SessionUser>] ([utils/session.ts]). *)
Module SessionUser.
Record t : Type := mk {
  email : option string;
  role : option string;
  id : option Value
}.

Definition empty : t := mk None None None.

(** [Object.assign(data, update)], which is what [session.update] does. *)
Definition assign (data update : t) : t :=
  mk (match email update with Some e => Some e | None => email data end)
     (match role update with Some r => Some r | None => role data end)
     (match id update with Some i => Some i | None => id data end).

Definition opt_field (k : string) (v : option Value) : list (string * Value) :=
  match v with
  | Some x => [(k, x)]
  | None => []
  end.

(** The object spread [{ ...data }]. *)
Definition spread (data : t) : Value :=
  VObj (opt_field "email" (option_map VStr (email data))
        ++ opt_field "role" (option_map VStr (role data))
        ++ opt_field "id" (id data)).
End SessionUser.

Record World : Type := mkWorld {
  users : list User.t;
  session : SessionUser.t
}.

(** ** Exceptions and the monad of server functions *)

(** A JavaScript [Error] object; only its [message] is ever inspected. *)
Record JsError : Type := mkError { message : string }.

(** The object built by [redirect({ to, statusCode })]. *)
Record Redirect : Type := mkRedirect { to : string; statusCode : Z }.

Inductive Exn : Type :=
| ErrorExn (e : JsError)
| ZodExn (issues : list ZodIssue)
| RedirectExn (r : Redirect).

Inductive Outcome (A : Type) : Type :=
| Return (a : A)
| Throw (e : Exn).
Arguments Return {A} a.
Arguments Throw {A} e.

Definition M (A : Type) : Type := World -> Outcome A * World.

Definition ret {A} (a : A) : M A := fun w => (Return a, w).

Definition throw {A} (e : Exn) : M A := fun w => (Throw e, w).

Definition bind {A B} (m : M A) (k : A -> M B) : M B :=
  fun w =>
    match m w with
    | (Return a, w') => k a w'
    | (Throw e, w') => (Throw e, w')
    end.

Declare Scope js_scope.
Delimit Scope js_scope with js.
Notation "x <- m ;; k" := (bind m (fun x => k))
  (at level 61, m at next level, right associativity) : js_scope.
Notation "m ;;; k" := (bind m (fun _ => k))
  (at level 61, right associativity) : js_scope.
Local Open Scope js_scope.

(** ** The libraries the code calls *)

(** What the code takes from Node, zod and Prisma without defining it:
    - [pbkdf2 password salt iterations keylen digest] is [crypto.pbkdf2]; its
      callback receives an error or the derived key, which has [keylen]
      bytes;
    - [email_format] is the pattern behind [z.string().email()];
    - [issues_message] is the [message] of a [ZodError];
    - [assign_id] is the [id] the database gives to a new row; it sees the
      table only, not a sequence counter or a random source of the database,
      so the ids of two insertions are not to be compared;
    - [unique_violation] is the error of [create] on a duplicate e-mail. *)
Class Platform : Type := {
  pbkdf2 : string -> string -> N -> N -> string -> JsError + list byte;
  pbkdf2_keylen : forall password salt iterations keylen digest key,
      pbkdf2 password salt iterations keylen digest = inr key ->
      N.of_nat (List.length key) = keylen;
  email_format : string -> bool;
  issues_message : list ZodIssue -> string;
  assign_id : list User.t -> Value;
  unique_violation : JsError
}.

(** ** [utils/prisma.ts] *)

Definition hex_digit (n : N) : ascii :=
  match n with
  | 0 => "0" | 1 => "1" | 2 => "2" | 3 => "3" | 4 => "4" | 5 => "5"
  | 6 => "6" | 7 => "7" | 8 => "8" | 9 => "9" | 10 => "a" | 11 => "b"
  | 12 => "c" | 13 => "d" | 14 => "e" | _ => "f"
  end%N%char.

(** [buffer.toString('hex')]: two lower-case digits per byte. *)
Fixpoint to_hex (buffer : list byte) : string :=
  match buffer with
  | [] => ""
  | b :: rest =>
      let n := Byte.to_N b in
      String (hex_digit (n / 16)) (String (hex_digit (n mod 16)) (to_hex rest))
  end.

(** The characters [toString('hex')] can produce. *)
Definition is_hex (c : ascii) : bool :=
  existsb (Ascii.eqb c) (list_ascii_of_string "0123456789abcdef").

Definition hashPassword `{Platform} (password : string) : M string :=
  fun w =>
    match pbkdf2 password "salt" 100000 64 "sha256" with
    | inl err => (Throw (ErrorExn err), w)
    | inr derivedKey => (Return (to_hex derivedKey), w)
    end.

(** [prismaClient.user]: the table is keyed by its unique [email]. *)
Module prismaClient.
Inductive Column : Type :=
| id | email | password | role | first_name | last_name.

Definition name (c : Column) : string :=
  match c with
  | id => "id" | email => "email" | password => "password"
  | role => "role" | first_name => "first_name" | last_name => "last_name"
  end.

Definition value (c : Column) (u : User.t) : Value :=
  match c with
  | id => User.id u
  | email => VStr (User.email u)
  | password => VStr (User.password u)
  | role => VStr (User.role u)
  | first_name => VStr (User.first_name u)
  | last_name => VStr (User.last_name u)
  end.

(** The object a query returns for a row under [select: { c: true, ... }]. *)
Definition select (columns : list Column) (u : User.t) : Value :=
  VObj (map (fun c => (name c, value c u)) columns).

Definition lookup (email : string) (table : list User.t) : option User.t :=
  find (fun u => User.email u =? email) table.

(** [findUnique({ where: { email } })]: the row, or [null]. *)
Definition findUnique (email : string) : M (option User.t) :=
  fun w => (Return (lookup email (users w)), w).

(** [findUnique({ where: { email }, select })]. *)
Definition findUnique_select (email : string) (columns : list Column)
  : M Value :=
  fun w =>
    (Return (match lookup email (users w) with
             | Some u => select columns u
             | None => VNull
             end), w).

(** [create({ data })]: [role] takes its default ["user"], the database
    assigns [id]; a duplicate [email] is refused. *)
Definition create `{Platform} (email password first_name last_name : string)
  : M User.t :=
  fun w =>
    match lookup email (users w) with
    | Some _ => (Throw (ErrorExn unique_violation), w)
    | None =>
        let u := User.mk (assign_id (users w)) email password "user"
                         first_name last_name in
        (Return u, mkWorld (users w ++ [u]) (session w))
    end.

(** [deleteMany()]: every row goes; the count of deleted rows is returned. *)
Definition deleteMany : M nat :=
  fun w => (Return (List.length (users w)), mkWorld [] (session w)).

(** [upsert({ where: { email }, update: { password, role }, create })]: the
    row with that e-mail gets the new [password] and [role]; without such a
    row the [create] data is inserted, the database assigning [id]. *)
Definition upsert `{Platform} (where_email : string)
  (update_password update_role : string)
  (create_email create_password create_first_name create_last_name
     create_role : string) : M User.t :=
  fun w =>
    match lookup where_email (users w) with
    | Some found =>
        let u := User.mk (User.id found) (User.email found) update_password
                         update_role (User.first_name found)
                         (User.last_name found) in
        (Return u,
         mkWorld (map (fun row => if User.email row =? where_email then u
                                  else row) (users w))
                 (session w))
    | None =>
        match lookup create_email (users w) with
        | Some _ => (Throw (ErrorExn unique_violation), w)
        | None =>
            let u := User.mk (assign_id (users w)) create_email
                             create_password create_role create_first_name
                             create_last_name in
            (Return u, mkWorld (users w ++ [u]) (session w))
        end
    end.
End prismaClient.

(** ** [utils/session.ts] *)

Module useAppSession.
(** [session.data] *)
Definition data : M SessionUser.t := fun w => (Return (session w), w).

(** [session.update(update)] *)
Definition update (update : SessionUser.t) : M unit :=
  fun w => (Return tt, mkWorld (users w) (SessionUser.assign (session w) update)).
End useAppSession.

(** ** zod schemas *)

Module z.
(** [z.string().email()] at property [path]. *)
Definition email `{Platform} (path : string) (s : string) : list ZodIssue :=
  if email_format s then [] else [invalid_string "email" path].

(** [z.string().min(minimum)] at property [path]. *)
Definition min (minimum : nat) (path : string) (s : string) : list ZodIssue :=
  if Nat.ltb (String.length s) minimum then [too_small minimum path] else [].

(** [schema.parse(data)]: the data, or a thrown [ZodError]. *)
Definition parse {A} (schema : A -> list ZodIssue) (data : A) : M A :=
  match schema data with
  | [] => ret data
  | issues => throw (ZodExn issues)
  end.

(** [schema.safeParse(data)]: [inr] is [{ success: true, data }], [inl] is
    [{ success: false, error: { issues } }]. *)
Definition safeParse {A} (schema : A -> list ZodIssue) (data : A)
  : list ZodIssue + A :=
  match schema data with
  | [] => inr data
  | issues => inl issues
  end.
End z.

(** The payload of [loginFn]. *)
Module Signin.
Record t : Type := mk { email : string; password : string }.
End Signin.

(** The payload of [signupFn]. *)
Module Signup.
Record t : Type := mk {
  email : string;
  password : string;
  first_name : string;
  last_name : string;
  redirectUrl : option string
}.
End Signup.

Definition signinSchema `{Platform} (data : Signin.t) : list ZodIssue :=
  z.email "email" (Signin.email data)
  ++ z.min 6 "password" (Signin.password data).

(** [redirectUrl: z.string().optional()] accepts every optional string. *)
Definition signupSchema `{Platform} (data : Signup.t) : list ZodIssue :=
  z.email "email" (Signup.email data)
  ++ z.min 6 "password" (Signup.password data)
  ++ z.min 1 "first_name" (Signup.first_name data)
  ++ z.min 1 "last_name" (Signup.last_name data).

(** [user.role || 'user'] *)
Definition role_or_user (role : string) : string :=
  if truthy (VStr role) then role else "user".

(** ** [routes/_authed.tsx], current variant *)

Module Current.
(** The handler of [loginFn]; [found] is selected with [id], [email],
    [password] and [role], the only columns read below. *)
Definition loginHandler `{Platform} (data : Signin.t) : M Value :=
  found <- prismaClient.findUnique (Signin.email data) ;;
  match found with
  | None =>
      ret (VObj [("error", VBool true);
                 ("userNotFound", VBool true);
                 ("message", VStr "User not found")])
  | Some found =>
      hashedPassword <- hashPassword (Signin.password data) ;;
      if negb (User.password found =? hashedPassword) then
        ret (VObj [("error", VBool true);
                   ("message", VStr "Incorrect password");
                   ("userNotFound", VBool true)])
      else
        useAppSession.update
          (SessionUser.mk (Some (User.email found))
                          (Some (User.role found))
                          (Some (User.id found))) ;;;
        ret (VObj [("error", VBool false);
                   ("userNotFound", VBool false);
                   ("message", VStr "Logged in")])
  end.

(** [createServerFn({ method: 'POST' }).validator(signinSchema).handler(..)]:
    the validator parses the payload and throws before the handler runs. *)
Definition loginFn `{Platform} (data : Signin.t) : M Value :=
  data <- z.parse signinSchema data ;;
  loginHandler data.

Definition signupHandler `{Platform} (data : Signup.t) : M Value :=
  found <- prismaClient.findUnique (Signup.email data) ;;
  match found with
  | Some _ =>
      ret (VObj [("error", VBool true);
                 ("userExists", VBool true);
                 ("message", VStr "User already exists")])
  | None =>
      hashedPassword <- hashPassword (Signup.password data) ;;
      user <- prismaClient.create (Signup.email data) hashedPassword
                (Signup.first_name data) (Signup.last_name data) ;;
      useAppSession.update
        (SessionUser.mk (Some (Signup.email data))
                        (Some (role_or_user (User.role user)))
                        (Some (User.id user))) ;;;
      ret (VObj [("error", VBool false);
                 ("message", VStr "user created");
                 ("issues", VNull)])
  end.

Definition signupFn `{Platform} (data : Signup.t) : M Value :=
  data <- z.parse signupSchema data ;;
  signupHandler data.
End Current.

(** ** [routes/_authed.tsx], older variant *)

Module Legacy.
(** [createServerFn('POST', async (formData) => ..)]: no validator; a
    successful login ends in a thrown redirect. *)
Definition loginFn `{Platform} (formData : Signin.t) : M Value :=
  let email := Signin.email formData in
  let password := Signin.password formData in
  found <- prismaClient.findUnique email ;;
  match found with
  | None =>
      ret (VObj [("error", VBool true);
                 ("userNotFound", VBool true);
                 ("message", VStr "User not found")])
  | Some found =>
      hashedPassword <- hashPassword password ;;
      if negb (User.password found =? hashedPassword) then
        ret (VObj [("error", VBool true);
                   ("message", VStr "Incorrect password")])
      else
        useAppSession.update
          (SessionUser.mk (Some (User.email found))
                          (Some (User.role found))
                          (Some (User.id found))) ;;;
        throw (RedirectExn (mkRedirect "/home" 301))
  end.

(** [payload.redirectUrl || '/'] *)
Definition redirect_target (redirectUrl : option string) : string :=
  match redirectUrl with
  | Some url => if truthy (VStr url) then url else "/"
  | None => "/"
  end.

Definition signupFn `{Platform} (payload : Signup.t) : M Value :=
  found <- prismaClient.findUnique (Signup.email payload) ;;
  match found with
  | Some _ =>
      ret (VObj [("error", VBool true);
                 ("userExists", VBool true);
                 ("message", VStr "User already exists")])
  | None =>
      match z.safeParse signupSchema payload with
      | inl issues =>
          ret (VObj [("error", VBool true);
                     ("message", VStr "Invalid input");
                     ("issues", VIssues issues)])
      | inr result_data =>
          hashedPassword <- hashPassword (Signup.password payload) ;;
          user <- prismaClient.create (Signup.email result_data) hashedPassword
                    (Signup.first_name result_data)
                    (Signup.last_name result_data) ;;
          useAppSession.update
            (SessionUser.mk (Some (Signup.email payload))
                            (Some (role_or_user (User.role user)))
                            (Some (User.id user))) ;;;
          throw (RedirectExn
                   (mkRedirect (redirect_target (Signup.redirectUrl payload)) 301))
      end
  end.
End Legacy.

(** ** [routes/_authed.tsx], the part both variants share *)

Definition fetchSessionUser : M Value :=
  data <- useAppSession.data ;;
  if negb (truthy_str (SessionUser.email data)) then ret VNull
  else ret (SessionUser.spread data).

(** The columns of [select] in [getCurrentUser]. *)
Definition profile_columns : list prismaClient.Column :=
  [prismaClient.id; prismaClient.email; prismaClient.role;
   prismaClient.first_name; prismaClient.last_name].

Definition getCurrentUser : M Value :=
  data <- useAppSession.data ;;
  match SessionUser.email data with
  | None => throw (ErrorExn (mkError "Not authenticated"))
  | Some email =>
      if negb (truthy (VStr email)) then
        throw (ErrorExn (mkError "Not authenticated"))
      else prismaClient.findUnique_select email profile_columns
  end.

(** What a navigation ends in. *)
Inductive View : Type :=
| Login
| Outlet (context loaderData : Value)
| DefaultCatchBoundary (error : Exn).

(** [Failed e]: a [beforeLoad] or a loader threw [e]. *)
Inductive Navigation : Type :=
| Rendered (v : View)
| Redirected (r : Redirect)
| Failed (error : Exn).

(** [error.message] *)
Definition error_message `{Platform} (error : Exn) : option string :=
  match error with
  | ErrorExn e => Some (message e)
  | ZodExn issues => Some (issues_message issues)
  | RedirectExn _ => None
  end.

(** [createFileRoute('/_authed')({ beforeLoad, errorComponent })] *)
Module Route.
(** [Some r] is [return redirect(r)], [None] is falling off the end. *)
Definition beforeLoad (context : Value) : option Redirect :=
  if negb (truthy (get_prop "user" context)) then Some (mkRedirect "/" 301)
  else None.

Definition errorComponent `{Platform} (error : Exn) : Outcome View :=
  match error_message error with
  | Some m => if m =? "Not authenticated" then Return Login else Throw error
  | None => Throw error
  end.
End Route.

(** [routes/__root.tsx] *)
Module RootRoute.
Definition beforeLoad : M Value :=
  user <- fetchSessionUser ;;
  ret (VObj [("user", user)]).

Definition errorComponent (error : Exn) : View := DefaultCatchBoundary error.
End RootRoute.

(** [routes/_authed/home.tsx] *)
Module HomeRoute.
Definition loader : M Value :=
  user <- getCurrentUser ;;
  if negb (truthy user) then
    ret (VObj [("status", VNum 401); ("redirect", VStr "/")])
  else ret (VObj [("userData", user)]).
End HomeRoute.

(** ** The router's side of a navigation under [/_authed]

    The order in which TanStack Router runs the options of the matched
    routes: [beforeLoad] of the root, then of [/_authed] (a redirect it
    returns ends the navigation), then the loader of the child.  What the
    router shows for a thrown value, and which error component it asks, is
    decided by the router and its configuration and is not modelled: the
    navigation is then [Failed]. *)
Module Router.
Definition navigate (loader : M Value) (w : World) : Navigation * World :=
  match RootRoute.beforeLoad w with
  | (Throw e, w1) => (Failed e, w1)
  | (Return context, w1) =>
      match Route.beforeLoad context with
      | Some r => (Redirected r, w1)
      | None =>
          match loader w1 with
          | (Return loaderData, w2) => (Rendered (Outlet context loaderData), w2)
          | (Throw e, w2) => (Failed e, w2)
          end
      end
  end.
End Router.

(** ** [prisma/seed.ts] *)

Module Seed.
(** [main()]; the [console.log] at its end has no effect on the stores. *)
Definition main `{Platform} : M unit :=
  hashedPassword <- hashPassword "adminpassword" ;;
  prismaClient.deleteMany ;;;
  prismaClient.upsert "admin@example.com" hashedPassword "admin"
    "admin@example.com" hashedPassword "Admin" "User" "admin" ;;;
  ret tt.
End Seed.

(** ** Predicates on states and results *)

(** The e-mails of a table, in row order. *)
Definition emails (table : list User.t) : list string := map User.email table.

(** The session of a user, as [loginFn] and [signupFn] write it. *)
Definition session_of (u : User.t) : SessionUser.t :=
  SessionUser.mk (Some (User.email u)) (Some (User.role u)) (Some (User.id u)).

(** A session that counts as logged in mirrors a row of the table. *)
Definition session_valid (w : World) : Prop :=
  truthy_str (SessionUser.email (session w)) = true ->
  exists u, In u (users w) /\ session w = session_of u.

(** The columns of a row other than [id]. *)
Definition row_without_id (u : User.t)
  : string * string * string * string * string :=
  (User.email u, User.password u, User.role u, User.first_name u,
   User.last_name u).

(** [issue.path] *)
Definition issue_path (issue : ZodIssue) : string :=
  match issue with
  | invalid_string _ path => path
  | too_small _ path => path
  end.

(** ** A sample platform

    One choice of the library functions, used to run the model on concrete
    requests.  [pbkdf2] is a stand-in that stretches its inputs to [keylen]
    bytes; [email_format] follows the pattern of zod 3.23. *)
Module Sample.
Definition byte_of_nat (n : nat) : byte :=
  match Byte.of_N (N.of_nat (n mod 256)) with
  | Some b => b
  | None => x00
  end.

Definition code_at (s : string) (i : nat) : nat :=
  match String.get (i mod (String.length s)) s with
  | Some c => nat_of_ascii c
  | None => 0
  end.

Definition kdf (password salt : string) (iterations keylen : N)
  (digest : string) : JsError + list byte :=
  inr (map (fun i => byte_of_nat (code_at password i + 31 * code_at salt i
                                  + 7 * code_at digest i
                                  + N.to_nat (iterations mod 256) + i))
           (seq 0 (N.to_nat keylen))).

Definition is_digit (c : ascii) : bool :=
  let n := nat_of_ascii c in (48 <=? n)%nat && (n <=? 57)%nat.

Definition is_letter (c : ascii) : bool :=
  let n := nat_of_ascii c in
  ((65 <=? n)%nat && (n <=? 90)%nat) || ((97 <=? n)%nat && (n <=? 122)%nat).

Definition is_alnum (c : ascii) : bool := is_letter c || is_digit c.

Definition one_of (set : string) (c : ascii) : bool :=
  existsb (Ascii.eqb c) (list_ascii_of_string set).

(** [split sep s]: the pieces of [s] between occurrences of [sep]. *)
Fixpoint split (sep : ascii) (s : string) : list string :=
  match s with
  | EmptyString => [""]
  | String c rest =>
      if Ascii.eqb c sep then "" :: split sep rest
      else match split sep rest with
           | piece :: pieces => String c piece :: pieces
           | [] => [String c ""]
           end
  end.

Definition all_chars (p : ascii -> bool) (s : string) : bool :=
  forallb p (list_ascii_of_string s).

Fixpoint has_double_dot (s : string) : bool :=
  match s with
  | String "." (String "." _) => true
  | String _ rest => has_double_dot rest
  | EmptyString => false
  end.

(** The part before the at sign: letters, digits and the signs
    underscore, quote, plus, minus, dot; the last one is not a dot or a
    quote, and the first one is not a dot. *)
Definition local_part (s : string) : bool :=
  match rev (list_ascii_of_string s) with
  | [] => false
  | last :: _ =>
      (is_alnum last || one_of "_+-" last)
      && all_chars (fun c => is_alnum c || one_of "_'+-." c) s
      && negb (match s with String "." _ => true | _ => false end)
  end.

(** A label of the domain: a letter or digit, then letters, digits or
    minus signs. *)
Definition label (s : string) : bool :=
  match s with
  | EmptyString => false
  | String c rest => is_alnum c && all_chars (fun c => is_alnum c || one_of "-" c) rest
  end.

(** One or more labels, each followed by a dot, then two or more letters. *)
Definition domain (s : string) : bool :=
  match rev (split "." s) with
  | tld :: ((_ :: _) as labels) =>
      all_chars is_letter tld && (2 <=? String.length tld)%nat
      && forallb label labels
  | _ => false
  end.

Definition zod_email (s : string) : bool :=
  match split "@" s with
  | [l; d] => local_part l && negb (has_double_dot s) && domain d
  | _ => false
  end.

Definition path_of (i : ZodIssue) : string :=
  match i with
  | invalid_string _ p => p
  | too_small _ p => p
  end.

Definition render (issues : list ZodIssue) : string :=
  "Invalid: " ++ String.concat ", " (map path_of issues).

Definition next_id (table : list User.t) : Value :=
  VNum (Z.of_nat (S (List.length table))).

Definition platform : Platform.
Proof.
  refine {| pbkdf2 := kdf;
            email_format := zod_email;
            issues_message := render;
            assign_id := next_id;
            unique_violation := mkError "Unique constraint failed" |}.
  intros password salt iterations keylen digest key E.
  injection E as E. subst key. rewrite length_map, length_seq. apply N2Nat.id.
Defined.

(** A table holding the seeded administrator and one member. *)
Definition admin : User.t :=
  match kdf "adminpassword" "salt" 100000 64 "sha256" with
  | inr key => User.mk (VNum 1) "admin@example.com" (to_hex key) "admin"
                       "Admin" "User"
  | inl _ => User.mk (VNum 1) "admin@example.com" "" "admin" "Admin" "User"
  end.

Definition member : User.t :=
  match kdf "abc" "salt" 100000 64 "sha256" with
  | inr key => User.mk (VNum 2) "kim@example.com" (to_hex key) "user" "Kim" "Lee"
  | inl _ => User.mk (VNum 2) "kim@example.com" "" "user" "Kim" "Lee"
  end.

Definition logged_out : World := mkWorld [admin; member] SessionUser.empty.

Definition logged_in : World :=
  mkWorld [admin; member]
          (SessionUser.mk (Some "admin@example.com") (Some "admin") (Some (VNum 1))).

(** A session that outlived its row. *)
Definition stale : World :=
  mkWorld [admin; member]
          (SessionUser.mk (Some "gone@example.com") (Some "user") (Some (VNum 9))).

(** A signup payload for an e-mail that is not in the table. *)
Definition newcomer : Signup.t :=
  Signup.mk "sam@example.com" "s3cret-pw" "Sam" "Doe" (Some "/posts").

Definition newcomer_row : User.t :=
  match kdf "s3cret-pw" "salt" 100000 64 "sha256" with
  | inr key => User.mk (VNum 3) "sam@example.com" (to_hex key) "user" "Sam" "Doe"
  | inl _ => User.mk (VNum 3) "sam@example.com" "" "user" "Sam" "Doe"
  end.

(** A platform whose [pbkdf2] always reports an error. *)
Definition failing_platform : Platform.
Proof.
  refine {| pbkdf2 := fun _ _ _ _ _ => inl (mkError "out of memory");
            email_format := zod_email;
            issues_message := render;
            assign_id := next_id;
            unique_violation := mkError "Unique constraint failed" |}.
  intros password salt iterations keylen digest key E. discriminate E.
Defined.
End Sample.

(** * Properties *)

Section Facts.
Context {P : Platform}.

(** ** The stores *)

Lemma lookup_email (email : string) (table : list User.t) (u : User.t) :
  prismaClient.lookup email table = Some u -> User.email u = email.
Proof.
  unfold prismaClient.lookup. intros Hfind.
  apply find_some in Hfind. destruct Hfind as [_ Heq].
  now apply String.eqb_eq.
Qed.

(** A full update leaves nothing of the previous session data. *)
Lemma assign_full (data : SessionUser.t) (e r : string) (i : Value) :
  SessionUser.assign data (SessionUser.mk (Some e) (Some r) (Some i))
  = SessionUser.mk (Some e) (Some r) (Some i).
Proof. reflexivity. Qed.

Lemma truthy_str_some (o : option string) :
  truthy_str o = true <-> exists s, o = Some s /\ s <> "".
Proof.
  destruct o as [s|]; simpl.
  - rewrite negb_true_iff. split.
    + intros H. exists s. split; [reflexivity|].
      intros ->. discriminate.
    + intros [s' [[= <-] Hne]]. now apply String.eqb_neq.
  - split; [discriminate | intros [s [[=] _]]].
Qed.

(** ** The password hasher *)

Lemma hashPassword_run (password : string) (w : World) :
  hashPassword password w
  = (match pbkdf2 password "salt" 100000 64 "sha256" with
     | inl err => Throw (ErrorExn err)
     | inr key => Return (to_hex key)
     end, w).
Proof. unfold hashPassword. now destruct pbkdf2. Qed.

Lemma hashPassword_returns (password digest : string) (w : World) :
  fst (hashPassword password w) = Return digest ->
  forall w', hashPassword password w' = (Return digest, w').
Proof.
  rewrite hashPassword_run. simpl. intros H w'.
  rewrite hashPassword_run. now rewrite H.
Qed.

Lemma hex_digit_is_hex (n : N) : is_hex (hex_digit n) = true.
Proof.
  destruct n as [|p]; [reflexivity|].
  do 4 (destruct p as [p|p|]; try reflexivity).
Qed.

Lemma to_hex_length (buffer : list byte) :
  String.length (to_hex buffer) = 2 * List.length buffer.
Proof.
  induction buffer as [|b rest IH]; simpl; [reflexivity|].
  rewrite IH. lia.
Qed.

Lemma to_hex_chars (buffer : list byte) :
  forallb is_hex (list_ascii_of_string (to_hex buffer)) = true.
Proof.
  induction buffer as [|b rest IH]; simpl; [reflexivity|].
  now rewrite !hex_digit_is_hex, IH.
Qed.

(** ** Validators *)

Lemma parse_accepts {A} (schema : A -> list ZodIssue) (data : A) (w : World) :
  schema data = [] -> z.parse schema data w = (Return data, w).
Proof. unfold z.parse. now intros ->. Qed.

Lemma parse_rejects {A} (schema : A -> list ZodIssue) (data : A) (w : World) :
  schema data <> [] -> z.parse schema data w = (Throw (ZodExn (schema data)), w).
Proof. unfold z.parse. destruct (schema data); [congruence | reflexivity]. Qed.

Lemma safeParse_rejects {A} (schema : A -> list ZodIssue) (data : A) :
  schema data <> [] -> z.safeParse schema data = inl (schema data).
Proof. unfold z.safeParse. destruct (schema data); [congruence | reflexivity]. Qed.

Lemma min_accepts (minimum : nat) (path s : string) :
  z.min minimum path s = [] <-> minimum <= String.length s.
Proof.
  unfold z.min. destruct (Nat.ltb_spec (String.length s) minimum).
  - split; [discriminate | lia].
  - split; [lia | reflexivity].
Qed.

Lemma email_accepts (path s : string) :
  z.email path s = [] <-> email_format s = true.
Proof.
  unfold z.email. destruct (email_format s).
  - split; reflexivity.
  - split; discriminate.
Qed.

Lemma app_nil_iff {A} (l1 l2 : list A) :
  (l1 ++ l2)%list = [] <-> l1 = [] /\ l2 = [].
Proof.
  split.
  - apply app_eq_nil.
  - intros [-> ->]. reflexivity.
Qed.

Lemma signupSchema_accepts (data : Signup.t) :
  signupSchema data = [] <->
  email_format (Signup.email data) = true
  /\ 6 <= String.length (Signup.password data)
  /\ 1 <= String.length (Signup.first_name data)
  /\ 1 <= String.length (Signup.last_name data).
Proof.
  unfold signupSchema.
  rewrite !app_nil_iff, email_accepts, !min_accepts. tauto.
Qed.

Lemma signinSchema_accepts (data : Signin.t) :
  signinSchema data = [] <->
  email_format (Signin.email data) = true
  /\ 6 <= String.length (Signin.password data).
Proof.
  unfold signinSchema.
  rewrite !app_nil_iff, email_accepts, !min_accepts. tauto.
Qed.

(** The validator of a server function runs first: a rejected payload
    never reaches the handler. *)
Lemma loginFn_rejected (data : Signin.t) (w : World) :
  signinSchema data <> [] ->
  Current.loginFn data w = (Throw (ZodExn (signinSchema data)), w).
Proof.
  intros H. unfold Current.loginFn, bind. now rewrite parse_rejects.
Qed.

Lemma loginFn_accepted (data : Signin.t) (w : World) :
  signinSchema data = [] ->
  Current.loginFn data w = Current.loginHandler data w.
Proof.
  intros H. unfold Current.loginFn, bind. now rewrite parse_accepts.
Qed.

Lemma signupFn_rejected (data : Signup.t) (w : World) :
  signupSchema data <> [] ->
  Current.signupFn data w = (Throw (ZodExn (signupSchema data)), w).
Proof.
  intros H. unfold Current.signupFn, bind. now rewrite parse_rejects.
Qed.

Lemma signupFn_accepted (data : Signup.t) (w : World) :
  signupSchema data = [] ->
  Current.signupFn data w = Current.signupHandler data w.
Proof.
  intros H. unfold Current.signupFn, bind. now rewrite parse_accepts.
Qed.

(** ** Login *)

(** The three exits of the login code, as equations on the handler of the
    current variant. *)
Lemma loginHandler_found (data : Signin.t) (w : World) (u : User.t)
  (digest : string) :
  prismaClient.lookup (Signin.email data) (users w) = Some u ->
  fst (hashPassword (Signin.password data) w) = Return digest ->
  Current.loginHandler data w
  = if User.password u =? digest then
      (Return (VObj [("error", VBool false);
                     ("userNotFound", VBool false);
                     ("message", VStr "Logged in")]),
       mkWorld (users w)
               (SessionUser.mk (Some (User.email u)) (Some (User.role u))
                               (Some (User.id u))))
    else
      (Return (VObj [("error", VBool true);
                     ("message", VStr "Incorrect password");
                     ("userNotFound", VBool true)]), w).
Proof.
  intros Hfound Hhash.
  unfold Current.loginHandler, bind, prismaClient.findUnique.
  rewrite Hfound, (hashPassword_returns _ _ _ Hhash).
  now destruct (User.password u =? digest).
Qed.

Lemma legacy_loginFn_found (data : Signin.t) (w : World) (u : User.t)
  (digest : string) :
  prismaClient.lookup (Signin.email data) (users w) = Some u ->
  fst (hashPassword (Signin.password data) w) = Return digest ->
  Legacy.loginFn data w
  = if User.password u =? digest then
      (Throw (RedirectExn (mkRedirect "/home" 301)),
       mkWorld (users w)
               (SessionUser.mk (Some (User.email u)) (Some (User.role u))
                               (Some (User.id u))))
    else
      (Return (VObj [("error", VBool true);
                     ("message", VStr "Incorrect password")]), w).
Proof.
  intros Hfound Hhash.
  unfold Legacy.loginFn, bind, prismaClient.findUnique.
  rewrite Hfound, (hashPassword_returns _ _ _ Hhash).
  now destruct (User.password u =? digest).
Qed.

(** C1, as amended.  When the user table holds a user with the given e-mail
    and the hash of the given password is the stored digest, the session is
    overwritten with exactly the [email], [role] and [id] of that user; the
    older [loginFn] then throws a redirect to [/home] (301) instead of
    returning; the current [loginFn] returns [{ error: false, userNotFound:
    false, message: 'Logged in' }] when its validator accepts the payload,
    and otherwise throws the validation error and writes nothing. *)
Theorem login_correct_credentials (data : Signin.t) (w : World) (u : User.t) :
  prismaClient.lookup (Signin.email data) (users w) = Some u ->
  fst (hashPassword (Signin.password data) w) = Return (User.password u) ->
  let written :=
    mkWorld (users w)
            (SessionUser.mk (Some (User.email u)) (Some (User.role u))
                            (Some (User.id u))) in
  User.email u = Signin.email data
  /\ Legacy.loginFn data w
     = (Throw (RedirectExn (mkRedirect "/home" 301)), written)
  /\ (signinSchema data = [] ->
      Current.loginFn data w
      = (Return (VObj [("error", VBool false);
                       ("userNotFound", VBool false);
                       ("message", VStr "Logged in")]), written))
  /\ (signinSchema data <> [] ->
      Current.loginFn data w = (Throw (ZodExn (signinSchema data)), w)).
Proof.
  intros Hfound Hhash written. repeat split.
  - now apply lookup_email with (table := users w).
  - rewrite (legacy_loginFn_found _ _ _ _ Hfound Hhash).
    now rewrite String.eqb_refl.
  - intros Hvalid. rewrite (loginFn_accepted _ _ Hvalid).
    rewrite (loginHandler_found _ _ _ _ Hfound Hhash).
    now rewrite String.eqb_refl.
  - apply loginFn_rejected.
Qed.

(** The current variant tags a wrong password [userNotFound: true], although
    the user was found. *)
Lemma incorrect_password_tagged_not_found (data : Signin.t) (w : World)
  (u : User.t) (digest : string) :
  prismaClient.lookup (Signin.email data) (users w) = Some u ->
  fst (hashPassword (Signin.password data) w) = Return digest ->
  digest <> User.password u ->
  exists result,
    Current.loginHandler data w = (Return result, w)
    /\ get_prop "userNotFound" result = VBool true.
Proof.
  intros Hfound Hhash Hdiff.
  rewrite (loginHandler_found _ _ _ _ Hfound Hhash).
  destruct (String.eqb_spec (User.password u) digest) as [Heq|_].
  - congruence.
  - eexists. split; reflexivity.
Qed.

(** C2, as amended.  When the user exists and the hash of the given
    password differs from the stored digest, nothing is written; the older
    [loginFn] returns exactly [{ error: true, message: 'Incorrect password'
    }]; the current [loginFn] returns a result with [error: true] and
    [message: 'Incorrect password'] when its validator accepts the payload,
    and otherwise throws the validation error. *)
Theorem login_incorrect_password (data : Signin.t) (w : World) (u : User.t)
  (digest : string) :
  prismaClient.lookup (Signin.email data) (users w) = Some u ->
  fst (hashPassword (Signin.password data) w) = Return digest ->
  digest <> User.password u ->
  Legacy.loginFn data w
  = (Return (VObj [("error", VBool true);
                   ("message", VStr "Incorrect password")]), w)
  /\ (signinSchema data = [] ->
      exists result,
        Current.loginFn data w = (Return result, w)
        /\ get_prop "error" result = VBool true
        /\ get_prop "message" result = VStr "Incorrect password")
  /\ (signinSchema data <> [] ->
      Current.loginFn data w = (Throw (ZodExn (signinSchema data)), w)).
Proof.
  intros Hfound Hhash Hdiff.
  assert (Hneq : (User.password u =? digest) = false)
    by (apply String.eqb_neq; congruence).
  repeat split.
  - rewrite (legacy_loginFn_found _ _ _ _ Hfound Hhash). now rewrite Hneq.
  - intros Hvalid. rewrite (loginFn_accepted _ _ Hvalid).
    rewrite (loginHandler_found _ _ _ _ Hfound Hhash), Hneq.
    eexists. repeat split.
  - apply loginFn_rejected.
Qed.

(** C4, as amended.  When no user has the given e-mail, nothing is written;
    the older [loginFn] returns [{ error: true, userNotFound: true, message:
    'User not found' }] for every payload; the current [loginFn] returns it
    when its validator accepts the payload, and otherwise throws the
    validation error. *)
Theorem login_unknown_email (data : Signin.t) (w : World) :
  prismaClient.lookup (Signin.email data) (users w) = None ->
  Legacy.loginFn data w
  = (Return (VObj [("error", VBool true);
                   ("userNotFound", VBool true);
                   ("message", VStr "User not found")]), w)
  /\ (signinSchema data = [] ->
      Current.loginFn data w
      = (Return (VObj [("error", VBool true);
                       ("userNotFound", VBool true);
                       ("message", VStr "User not found")]), w))
  /\ (signinSchema data <> [] ->
      Current.loginFn data w = (Throw (ZodExn (signinSchema data)), w)).
Proof.
  intros Habsent. repeat split.
  - unfold Legacy.loginFn, bind, prismaClient.findUnique.
    now rewrite Habsent.
  - intros Hvalid. rewrite (loginFn_accepted _ _ Hvalid).
    unfold Current.loginHandler, bind, prismaClient.findUnique.
    now rewrite Habsent.
  - apply loginFn_rejected.
Qed.

(** ** Signup *)

Lemma nonempty_length (s : string) : s <> "" -> 1 <= String.length s.
Proof. destruct s; simpl; [congruence | lia]. Qed.

(** C3, as amended.  When the e-mail of the payload is already in the user
    table, no user is created and the session is not written; the older
    [signupFn] returns [{ error: true, userExists: true, message: 'User
    already exists' }] for every payload; the current [signupFn] returns it
    when its validator accepts the payload, and otherwise throws the
    validation error. *)
Theorem signup_existing_email (data : Signup.t) (w : World) (u : User.t) :
  prismaClient.lookup (Signup.email data) (users w) = Some u ->
  Legacy.signupFn data w
  = (Return (VObj [("error", VBool true);
                   ("userExists", VBool true);
                   ("message", VStr "User already exists")]), w)
  /\ (signupSchema data = [] ->
      Current.signupFn data w
      = (Return (VObj [("error", VBool true);
                       ("userExists", VBool true);
                       ("message", VStr "User already exists")]), w))
  /\ (signupSchema data <> [] ->
      Current.signupFn data w = (Throw (ZodExn (signupSchema data)), w)).
Proof.
  intros Hfound. repeat split.
  - unfold Legacy.signupFn, bind, prismaClient.findUnique.
    now rewrite Hfound.
  - intros Hvalid. rewrite (signupFn_accepted _ _ Hvalid).
    unfold Current.signupHandler, bind, prismaClient.findUnique.
    now rewrite Hfound.
  - apply signupFn_rejected.
Qed.

(** C5, as amended.  The signup schema accepts a payload exactly when its
    e-mail is well formed, its password has at least 6 characters and both
    names are non-empty; so it rejects ["abcde"] and accepts ["abcdef"].
    A rejected payload has no side effect in either variant.  The current
    [signupFn] validates first, whatever the user table holds, and throws
    the validation error.  The older [signupFn] looks the e-mail up first:
    for a known e-mail it returns the user-exists result, and only for an
    unknown one it returns [{ error: true, message: 'Invalid input',
    issues }] with the issues of the schema. *)
Theorem signup_validation :
  (forall data : Signup.t,
      signupSchema data = [] <->
      email_format (Signup.email data) = true
      /\ 6 <= String.length (Signup.password data)
      /\ 1 <= String.length (Signup.first_name data)
      /\ 1 <= String.length (Signup.last_name data))
  /\ (forall (email first_name last_name : string) (url : option string),
         email_format email = true -> first_name <> "" -> last_name <> "" ->
         signupSchema (Signup.mk email "abcde" first_name last_name url)
         = [too_small 6 "password"]
         /\ signupSchema (Signup.mk email "abcdef" first_name last_name url)
            = [])
  /\ (forall (data : Signup.t) (w : World),
         signupSchema data <> [] ->
         Current.signupFn data w = (Throw (ZodExn (signupSchema data)), w)
         /\ (prismaClient.lookup (Signup.email data) (users w) = None ->
             Legacy.signupFn data w
             = (Return (VObj [("error", VBool true);
                              ("message", VStr "Invalid input");
                              ("issues", VIssues (signupSchema data))]), w))
         /\ (forall u,
                prismaClient.lookup (Signup.email data) (users w) = Some u ->
                Legacy.signupFn data w
                = (Return (VObj [("error", VBool true);
                                 ("userExists", VBool true);
                                 ("message", VStr "User already exists")]), w))).
Proof.
  split; [exact signupSchema_accepts|]. split.
  - intros email first_name last_name url Hemail Hfirst Hlast.
    apply nonempty_length in Hfirst, Hlast.
    unfold signupSchema, z.email, z.min. simpl. rewrite Hemail.
    destruct (Nat.ltb_spec (String.length first_name) 1); [lia|].
    destruct (Nat.ltb_spec (String.length last_name) 1); [lia|].
    split; reflexivity.
  - intros data w Hinvalid. split; [now apply signupFn_rejected|]. split.
    + intros Habsent.
      unfold Legacy.signupFn, bind, prismaClient.findUnique.
      now rewrite Habsent, (safeParse_rejects _ _ Hinvalid).
    + intros u Hfound.
      unfold Legacy.signupFn, bind, prismaClient.findUnique.
      now rewrite Hfound.
Qed.

(** ** The password hasher *)

(** C6.  [hashPassword] is a function of the plaintext alone: its outcome is
    the same in every state, and it changes no state.  The digest is the
    key derived by [pbkdf2] with salt ["salt"], 100000 iterations, 64 bytes
    and ["sha256"], written as 128 lower-case hexadecimal digits; the only
    failure is the one [pbkdf2] reports. *)
Theorem hashPassword_deterministic (password : string) (w1 w2 : World) :
  fst (hashPassword password w1) = fst (hashPassword password w2)
  /\ snd (hashPassword password w1) = w1
  /\ match fst (hashPassword password w1) with
     | Return digest =>
         exists key,
           pbkdf2 password "salt" 100000 64 "sha256" = inr key
           /\ digest = to_hex key
           /\ String.length digest = 128
           /\ forallb is_hex (list_ascii_of_string digest) = true
     | Throw e =>
         exists err,
           pbkdf2 password "salt" 100000 64 "sha256" = inl err
           /\ e = ErrorExn err
     end.
Proof.
  rewrite !hashPassword_run. simpl. repeat split.
  destruct (pbkdf2 password "salt" 100000 64 "sha256") as [err|key] eqn:Hkdf.
  - now exists err.
  - exists key. repeat split.
    + rewrite to_hex_length. apply pbkdf2_keylen in Hkdf. lia.
    + apply to_hex_chars.
Qed.

(** ** The resolvers *)

(** C8.  With no e-mail in the session, [getCurrentUser] throws the error
    ['Not authenticated'] and [fetchSessionUser] returns [null]; neither
    changes the state. *)
Theorem no_session_accessors (w : World) :
  truthy_str (SessionUser.email (session w)) = false ->
  getCurrentUser w = (Throw (ErrorExn (mkError "Not authenticated")), w)
  /\ fetchSessionUser w = (Return VNull, w).
Proof.
  intros Hnone. split.
  - unfold getCurrentUser, bind, useAppSession.data.
    destruct (SessionUser.email (session w)) as [e|]; [|reflexivity].
    simpl in Hnone |- *. now rewrite Hnone.
  - unfold fetchSessionUser, bind, useAppSession.data. now rewrite Hnone.
Qed.

Lemma getCurrentUser_session (w : World) (e : string) :
  SessionUser.email (session w) = Some e -> e <> "" ->
  getCurrentUser w
  = (Return (match prismaClient.lookup e (users w) with
             | Some u => prismaClient.select profile_columns u
             | None => VNull
             end), w).
Proof.
  intros Hemail Hne.
  unfold getCurrentUser, bind, useAppSession.data. rewrite Hemail. simpl.
  apply String.eqb_neq in Hne. now rewrite Hne.
Qed.

(** C9.  When the session holds the e-mail of a stored user,
    [getCurrentUser] returns an object with the properties [id], [email],
    [role], [first_name] and [last_name] of that user and no other; it has
    no [password] property. *)
Theorem getCurrentUser_projection (w : World) (e : string) (u : User.t) :
  SessionUser.email (session w) = Some e -> e <> "" ->
  prismaClient.lookup e (users w) = Some u ->
  exists result,
    getCurrentUser w = (Return result, w)
    /\ result = VObj [("id", User.id u);
                      ("email", VStr (User.email u));
                      ("role", VStr (User.role u));
                      ("first_name", VStr (User.first_name u));
                      ("last_name", VStr (User.last_name u))]
    /\ keys result = ["id"; "email"; "role"; "first_name"; "last_name"]
    /\ ~ In "password" (keys result)
    /\ get_prop "password" result = VUndefined.
Proof.
  intros Hemail Hne Hfound.
  rewrite (getCurrentUser_session _ _ Hemail Hne), Hfound.
  eexists. split; [reflexivity|]. split; [reflexivity|].
  split; [reflexivity|]. split; [|reflexivity].
  simpl. intros [H|[H|[H|[H|[H|[]]]]]]; discriminate.
Qed.

(** C10.  When the session holds a non-empty e-mail that no stored user
    has, [getCurrentUser] returns [null]: it neither throws nor returns a
    user. *)
Theorem getCurrentUser_stale_session (w : World) (e : string) :
  SessionUser.email (session w) = Some e -> e <> "" ->
  prismaClient.lookup e (users w) = None ->
  getCurrentUser w = (Return VNull, w).
Proof.
  intros Hemail Hne Habsent.
  now rewrite (getCurrentUser_session _ _ Hemail Hne), Habsent.
Qed.

(** ** The guard *)

Lemma fetchSessionUser_run (w : World) :
  fetchSessionUser w
  = (Return (if truthy_str (SessionUser.email (session w))
             then SessionUser.spread (session w) else VNull), w).
Proof.
  unfold fetchSessionUser, bind, useAppSession.data.
  now destruct (truthy_str (SessionUser.email (session w))).
Qed.

Lemma root_beforeLoad_run (w : World) :
  RootRoute.beforeLoad w
  = (Return (VObj [("user",
                    if truthy_str (SessionUser.email (session w))
                    then SessionUser.spread (session w) else VNull)]), w).
Proof.
  unfold RootRoute.beforeLoad, bind. now rewrite fetchSessionUser_run.
Qed.

(** The guard itself: it redirects exactly when [context.user] is falsy. *)
Lemma beforeLoad_spec (context : Value) :
  Route.beforeLoad context
  = if truthy (get_prop "user" context) then None
    else Some (mkRedirect "/" 301).
Proof.
  unfold Route.beforeLoad. now destruct (truthy (get_prop "user" context)).
Qed.


(** The loader of [/_authed/home] never throws once the guard has passed:
    with an e-mail in the session the home page is rendered, also for a
    stale session, where the loader data is [{ status: 401, redirect: '/'
    }]. *)
Lemma home_loader_returns (w : World) :
  truthy_str (SessionUser.email (session w)) = true ->
  exists loaderData, HomeRoute.loader w = (Return loaderData, w).
Proof.
  intros Hsome. apply truthy_str_some in Hsome.
  destruct Hsome as [e [Hemail Hne]].
  unfold HomeRoute.loader, bind.
  rewrite (getCurrentUser_session _ _ Hemail Hne).
  match goal with |- context [truthy ?v] => destruct (truthy v) end;
    eexists; reflexivity.
Qed.





End Facts.

(** * Runs on the sample platform *)

Section Runs.
Local Existing Instance Sample.platform.

Example email_pattern_samples :
  map Sample.zod_email
      ["admin@example.com"; "a.b+c@sub-x.example.org"; "a@b"; ".a@b.co";
       "a..b@c.de"; "a@@b.co"; ""]
  = [true; true; false; false; false; false; false].
Proof. reflexivity. Qed.

(** The scenario of the seed script: the administrator logs in. *)
Example admin_login :
  Current.loginFn (Signin.mk "admin@example.com" "adminpassword")
                  Sample.logged_out
  = (Return (VObj [("error", VBool false);
                   ("userNotFound", VBool false);
                   ("message", VStr "Logged in")]),
     Sample.logged_in).
Proof. vm_compute. reflexivity. Qed.

(** Signup on an empty table, then the session holds the default role. *)
Example signup_then_session :
  snd (Current.signupFn
         (Signup.mk "admin@example.com" "adminpassword" "Admin" "User" None)
         (mkWorld [] SessionUser.empty))
  = mkWorld [User.mk (VNum 1) "admin@example.com"
                     (User.password Sample.admin) "user" "Admin" "User"]
            (SessionUser.mk (Some "admin@example.com") (Some "user")
                            (Some (VNum 1))).
Proof. vm_compute. reflexivity. Qed.

(** *** Login *)

(** C1 at the seeded administrator. *)
Lemma login_correct_credentials_witness :
  let data := Signin.mk "admin@example.com" "adminpassword" in
  prismaClient.lookup (Signin.email data) (users Sample.logged_out)
  = Some Sample.admin
  /\ fst (hashPassword (Signin.password data) Sample.logged_out)
     = Return (User.password Sample.admin)
  /\ Legacy.loginFn data Sample.logged_out
     = (Throw (RedirectExn (mkRedirect "/home" 301)), Sample.logged_in)
  /\ Current.loginFn data Sample.logged_out
     = (Return (VObj [("error", VBool false);
                      ("userNotFound", VBool false);
                      ("message", VStr "Logged in")]), Sample.logged_in).
Proof.
  intros data.
  assert (Hfound : prismaClient.lookup (Signin.email data)
                     (users Sample.logged_out) = Some Sample.admin)
    by (vm_compute; reflexivity).
  assert (Hhash : fst (hashPassword (Signin.password data) Sample.logged_out)
                  = Return (User.password Sample.admin))
    by (vm_compute; reflexivity).
  destruct (login_correct_credentials data Sample.logged_out Sample.admin
              Hfound Hhash) as [_ [Hlegacy [Hcurrent _]]].
  split; [exact Hfound|]. split; [exact Hhash|]. split.
  - exact Hlegacy.
  - apply Hcurrent. vm_compute. reflexivity.
Defined.

(** C1 as stated fails.  In the older variant a login with the right
    credentials ends in a thrown redirect, not in a returned result; in the
    current variant a payload the validator refuses (here a stored password
    of three characters) never reaches the handler. *)
Lemma login_correct_credentials_counterexample :
  ~ (forall (data : Signin.t) (w : World) (u : User.t),
        prismaClient.lookup (Signin.email data) (users w) = Some u ->
        fst (hashPassword (Signin.password data) w)
        = Return (User.password u) ->
        exists result,
          fst (Legacy.loginFn data w) = Return result
          /\ get_prop "error" result = VBool false
          /\ get_prop "message" result = VStr "Logged in")
  /\ ~ (forall (data : Signin.t) (w : World) (u : User.t),
           prismaClient.lookup (Signin.email data) (users w) = Some u ->
           fst (hashPassword (Signin.password data) w)
           = Return (User.password u) ->
           exists result,
             fst (Current.loginFn data w) = Return result
             /\ get_prop "error" result = VBool false
             /\ get_prop "message" result = VStr "Logged in").
Proof.
  split; intros Hclaim.
  - destruct (Hclaim (Signin.mk "admin@example.com" "adminpassword")
                Sample.logged_out Sample.admin)
      as [result [Hreturn _]];
      [vm_compute; reflexivity | vm_compute; reflexivity |].
    vm_compute in Hreturn. discriminate Hreturn.
  - destruct (Hclaim (Signin.mk "kim@example.com" "abc")
                Sample.logged_out Sample.member)
      as [result [Hreturn _]];
      [vm_compute; reflexivity | vm_compute; reflexivity |].
    vm_compute in Hreturn. discriminate Hreturn.
Qed.

(** C2 at the administrator with a wrong password of eight characters. *)
Lemma login_incorrect_password_witness :
  let data := Signin.mk "admin@example.com" "password" in
  let digest := to_hex match Sample.kdf "password" "salt" 100000 64 "sha256" with
                       | inr key => key
                       | inl _ => []
                       end in
  prismaClient.lookup (Signin.email data) (users Sample.logged_out)
  = Some Sample.admin
  /\ fst (hashPassword (Signin.password data) Sample.logged_out) = Return digest
  /\ digest <> User.password Sample.admin
  /\ Legacy.loginFn data Sample.logged_out
     = (Return (VObj [("error", VBool true);
                      ("message", VStr "Incorrect password")]),
        Sample.logged_out)
  /\ exists result,
      Current.loginFn data Sample.logged_out = (Return result, Sample.logged_out)
      /\ get_prop "error" result = VBool true
      /\ get_prop "message" result = VStr "Incorrect password".
Proof.
  intros data digest.
  assert (Hfound : prismaClient.lookup (Signin.email data)
                     (users Sample.logged_out) = Some Sample.admin)
    by (vm_compute; reflexivity).
  assert (Hhash : fst (hashPassword (Signin.password data) Sample.logged_out)
                  = Return digest) by (vm_compute; reflexivity).
  assert (Hdiff : digest <> User.password Sample.admin)
    by (apply String.eqb_neq; vm_compute; reflexivity).
  destruct (login_incorrect_password data Sample.logged_out Sample.admin
              digest Hfound Hhash Hdiff) as [Hlegacy [Hcurrent _]].
  split; [exact Hfound|]. split; [exact Hhash|]. split; [exact Hdiff|].
  split; [exact Hlegacy|].
  apply Hcurrent. vm_compute. reflexivity.
Defined.

(** C2 as stated fails in the current variant: a wrong password of four
    characters is refused by the validator, so no result is returned. *)
Lemma login_incorrect_password_counterexample :
  ~ (forall (data : Signin.t) (w : World) (u : User.t) (digest : string),
        prismaClient.lookup (Signin.email data) (users w) = Some u ->
        fst (hashPassword (Signin.password data) w) = Return digest ->
        digest <> User.password u ->
        exists result,
          fst (Current.loginFn data w) = Return result
          /\ get_prop "error" result = VBool true
          /\ get_prop "message" result = VStr "Incorrect password").
Proof.
  intros Hclaim.
  destruct (Hclaim (Signin.mk "kim@example.com" "nope") Sample.logged_out
              Sample.member
              (to_hex match Sample.kdf "nope" "salt" 100000 64 "sha256" with
                      | inr key => key
                      | inl _ => []
                      end))
    as [result [Hreturn _]].
  - vm_compute. reflexivity.
  - vm_compute. reflexivity.
  - apply String.eqb_neq. vm_compute. reflexivity.
  - vm_compute in Hreturn. discriminate Hreturn.
Qed.

(** C4 at an unknown e-mail with a password of eight characters. *)
Lemma login_unknown_email_witness :
  let data := Signin.mk "ghost@example.com" "password" in
  prismaClient.lookup (Signin.email data) (users Sample.logged_out) = None
  /\ Legacy.loginFn data Sample.logged_out
     = (Return (VObj [("error", VBool true);
                      ("userNotFound", VBool true);
                      ("message", VStr "User not found")]), Sample.logged_out)
  /\ Current.loginFn data Sample.logged_out
     = (Return (VObj [("error", VBool true);
                      ("userNotFound", VBool true);
                      ("message", VStr "User not found")]), Sample.logged_out).
Proof.
  intros data.
  assert (Habsent : prismaClient.lookup (Signin.email data)
                      (users Sample.logged_out) = None)
    by (vm_compute; reflexivity).
  destruct (login_unknown_email data Sample.logged_out Habsent)
    as [Hlegacy [Hcurrent _]].
  split; [exact Habsent|]. split; [exact Hlegacy|].
  apply Hcurrent. vm_compute. reflexivity.
Defined.

(** C4 as stated fails in the current variant: for an unknown e-mail and a
    password of three characters the validator throws, and no result with
    [userNotFound] is returned. *)
Lemma login_unknown_email_counterexample :
  ~ (forall (data : Signin.t) (w : World),
        prismaClient.lookup (Signin.email data) (users w) = None ->
        exists result,
          fst (Current.loginFn data w) = Return result
          /\ get_prop "userNotFound" result = VBool true).
Proof.
  intros Hclaim.
  destruct (Hclaim (Signin.mk "ghost@example.com" "123") Sample.logged_out)
    as [result [Hreturn _]].
  - vm_compute. reflexivity.
  - vm_compute in Hreturn. discriminate Hreturn.
Qed.

(** *** Signup *)

(** C3 at the e-mail of the administrator, with a well-formed payload. *)
Lemma signup_existing_email_witness :
  let data := Signup.mk "admin@example.com" "abcdef" "Ada" "Min" None in
  prismaClient.lookup (Signup.email data) (users Sample.logged_out)
  = Some Sample.admin
  /\ Legacy.signupFn data Sample.logged_out
     = (Return (VObj [("error", VBool true);
                      ("userExists", VBool true);
                      ("message", VStr "User already exists")]),
        Sample.logged_out)
  /\ Current.signupFn data Sample.logged_out
     = (Return (VObj [("error", VBool true);
                      ("userExists", VBool true);
                      ("message", VStr "User already exists")]),
        Sample.logged_out).
Proof.
  intros data.
  assert (Hfound : prismaClient.lookup (Signup.email data)
                     (users Sample.logged_out) = Some Sample.admin)
    by (vm_compute; reflexivity).
  destruct (signup_existing_email data Sample.logged_out Sample.admin Hfound)
    as [Hlegacy [Hcurrent _]].
  split; [exact Hfound|]. split; [exact Hlegacy|].
  apply Hcurrent. vm_compute. reflexivity.
Defined.

(** C3 as stated fails in the current variant: with a known e-mail and a
    password of three characters the validator throws, and no result with
    [userExists] is returned. *)
Lemma signup_existing_email_counterexample :
  ~ (forall (data : Signup.t) (w : World) (u : User.t),
        prismaClient.lookup (Signup.email data) (users w) = Some u ->
        exists result,
          fst (Current.signupFn data w) = Return result
          /\ get_prop "userExists" result = VBool true
          /\ get_prop "error" result = VBool true).
Proof.
  intros Hclaim.
  destruct (Hclaim (Signup.mk "admin@example.com" "abc" "Ada" "Min" None)
              Sample.logged_out Sample.admin) as [result [Hreturn _]].
  - vm_compute. reflexivity.
  - vm_compute in Hreturn. discriminate Hreturn.
Qed.

(** C5 at a new e-mail with the password ["abcde"]. *)
Lemma signup_validation_witness :
  let data := Signup.mk "new@example.com" "abcde" "New" "User" None in
  signupSchema data = [too_small 6 "password"]
  /\ signupSchema (Signup.mk "new@example.com" "abcdef" "New" "User" None) = []
  /\ Current.signupFn data Sample.logged_out
     = (Throw (ZodExn [too_small 6 "password"]), Sample.logged_out)
  /\ Legacy.signupFn data Sample.logged_out
     = (Return (VObj [("error", VBool true);
                      ("message", VStr "Invalid input");
                      ("issues", VIssues [too_small 6 "password"])]),
        Sample.logged_out).
Proof.
  intros data.
  destruct signup_validation as [_ [Hlengths Hrejected]].
  destruct (Hlengths "new@example.com" "New" "User" None)
    as [Hfive Hsix];
    [vm_compute; reflexivity | discriminate | discriminate |].
  assert (Hinvalid : signupSchema data <> [])
    by (unfold data; rewrite Hfive; discriminate).
  destruct (Hrejected data Sample.logged_out Hinvalid)
    as [Hcurrent [Hlegacy _]].
  split; [exact Hfive|]. split; [exact Hsix|]. split.
  - unfold data in Hcurrent. rewrite Hfive in Hcurrent. exact Hcurrent.
  - unfold data in Hlegacy. rewrite Hfive in Hlegacy. apply Hlegacy.
    vm_compute. reflexivity.
Defined.

(** C5 as stated fails in both variants.  The current [signupFn] throws on
    a rejected payload instead of returning a result.  The older [signupFn]
    looks the e-mail up before it validates: a rejected payload with a known
    e-mail gets the user-exists result, not the invalid-input one. *)
Lemma signup_validation_counterexample :
  ~ (forall (data : Signup.t) (w : World),
        signupSchema data <> [] ->
        exists result, fst (Current.signupFn data w) = Return result)
  /\ ~ (forall (data : Signup.t) (w : World),
           signupSchema data <> [] ->
           exists result,
             fst (Legacy.signupFn data w) = Return result
             /\ get_prop "message" result = VStr "Invalid input").
Proof.
  split; intros Hclaim.
  - destruct (Hclaim (Signup.mk "new@example.com" "abcde" "New" "User" None)
                Sample.logged_out) as [result Hreturn].
    + vm_compute. discriminate.
    + vm_compute in Hreturn. discriminate Hreturn.
  - destruct (Hclaim (Signup.mk "admin@example.com" "abcde" "" "" None)
                Sample.logged_out) as [result [Hreturn Hmessage]].
    + vm_compute. discriminate.
    + vm_compute in Hreturn. injection Hreturn as <-.
      vm_compute in Hmessage. discriminate Hmessage.
Qed.

(** *** The password hasher *)

Example admin_digest :
  fst (hashPassword "adminpassword" Sample.logged_out)
  = fst (hashPassword "adminpassword" Sample.logged_in)
  /\ fst (hashPassword "adminpassword" Sample.logged_out)
     = Return (User.password Sample.admin)
  /\ String.length (User.password Sample.admin) = 128.
Proof. repeat split. Qed.

(** *** The guard and the resolvers *)



(** C8 at the logged-out state. *)
Lemma no_session_accessors_witness :
  truthy_str (SessionUser.email (session Sample.logged_out)) = false
  /\ getCurrentUser Sample.logged_out
     = (Throw (ErrorExn (mkError "Not authenticated")), Sample.logged_out)
  /\ fetchSessionUser Sample.logged_out = (Return VNull, Sample.logged_out).
Proof.
  split; [reflexivity|].
  apply (no_session_accessors Sample.logged_out). reflexivity.
Defined.

(** C9 at the session of the administrator. *)
Lemma getCurrentUser_projection_witness :
  SessionUser.email (session Sample.logged_in) = Some "admin@example.com"
  /\ prismaClient.lookup "admin@example.com" (users Sample.logged_in)
     = Some Sample.admin
  /\ exists result,
      getCurrentUser Sample.logged_in = (Return result, Sample.logged_in)
      /\ result = VObj [("id", VNum 1);
                        ("email", VStr "admin@example.com");
                        ("role", VStr "admin");
                        ("first_name", VStr "Admin");
                        ("last_name", VStr "User")]
      /\ get_prop "password" result = VUndefined.
Proof.
  split; [reflexivity|]. split; [vm_compute; reflexivity|].
  destruct (getCurrentUser_projection Sample.logged_in "admin@example.com"
              Sample.admin)
    as [result [Hrun [Hresult [_ [_ Hpassword]]]]];
    [reflexivity | discriminate | vm_compute; reflexivity |].
  exists result. split; [exact Hrun|]. split; [|exact Hpassword].
  rewrite Hresult. reflexivity.
Defined.

(** C10 at a session whose user is gone. *)
Lemma getCurrentUser_stale_session_witness :
  SessionUser.email (session Sample.stale) = Some "gone@example.com"
  /\ prismaClient.lookup "gone@example.com" (users Sample.stale) = None
  /\ getCurrentUser Sample.stale = (Return VNull, Sample.stale).
Proof.
  split; [reflexivity|]. split; [vm_compute; reflexivity|].
  apply (getCurrentUser_stale_session Sample.stale "gone@example.com");
    [reflexivity | discriminate | vm_compute; reflexivity].
Defined.

End Runs.

(** * Further properties of the code *)

Section Coverage.
Context {P : Platform}.

(** ** The user table *)

Lemma lookup_row (email : string) (table : list User.t) (u : User.t) :
  prismaClient.lookup email table = Some u -> In u table.
Proof.
  unfold prismaClient.lookup. intros Hfind. now apply find_some in Hfind.
Qed.

Lemma lookup_none_emails (email : string) (table : list User.t) :
  prismaClient.lookup email table = None -> ~ In email (emails table).
Proof.
  unfold prismaClient.lookup, emails. intros Hnone Hin.
  apply in_map_iff in Hin. destruct Hin as [u [Heq Hin]].
  apply (find_none _ _ Hnone) in Hin. simpl in Hin.
  rewrite Heq, String.eqb_refl in Hin. discriminate Hin.
Qed.

Lemma lookup_app_old (email : string) (table more : list User.t) (u : User.t) :
  prismaClient.lookup email table = Some u ->
  prismaClient.lookup email (table ++ more) = Some u.
Proof.
  unfold prismaClient.lookup. induction table as [|row rest IH]; simpl.
  - discriminate.
  - destruct (User.email row =? email); [trivial | exact IH].
Qed.

Lemma lookup_app_new (table : list User.t) (u : User.t) :
  prismaClient.lookup (User.email u) table = None ->
  prismaClient.lookup (User.email u) (table ++ [u]) = Some u.
Proof.
  unfold prismaClient.lookup. induction table as [|row rest IH]; simpl.
  - now rewrite String.eqb_refl.
  - destruct (User.email row =? User.email u); [discriminate | exact IH].
Qed.

Lemma emails_app_new (table : list User.t) (u : User.t) :
  NoDup (emails table) ->
  prismaClient.lookup (User.email u) table = None ->
  NoDup (emails (table ++ [u])).
Proof.
  intros Hnodup Hnone. unfold emails in *. rewrite map_app. simpl.
  apply NoDup_app.
  - exact Hnodup.
  - repeat constructor. intros [].
  - intros e Hin [<-|[]].
    now apply (lookup_none_emails _ _ Hnone).
Qed.

(** ** Signup, the path that creates the user *)

Lemma signupHandler_new (data : Signup.t) (w : World) (digest : string) :
  prismaClient.lookup (Signup.email data) (users w) = None ->
  fst (hashPassword (Signup.password data) w) = Return digest ->
  let u := User.mk (assign_id (users w)) (Signup.email data) digest "user"
                   (Signup.first_name data) (Signup.last_name data) in
  Current.signupHandler data w
  = (Return (VObj [("error", VBool false);
                   ("message", VStr "user created");
                   ("issues", VNull)]),
     mkWorld (users w ++ [u]) (session_of u)).
Proof.
  intros Hnone Hhash u.
  unfold Current.signupHandler, bind, prismaClient.findUnique.
  rewrite Hnone, (hashPassword_returns _ _ _ Hhash).
  unfold prismaClient.create. now rewrite Hnone.
Qed.

(** X1.  The current [signupFn] on an accepted payload with a new e-mail,
    when hashing succeeds: one row is appended, holding the digest (not the
    plaintext), the role ["user"] and the names of the payload; the session
    becomes that of the new user; the result is [{ error: false, message:
    'user created', issues: null }]; the new row is the one a lookup of
    the e-mail now finds. *)
Theorem signup_creates_user (data : Signup.t) (w : World) (digest : string) :
  signupSchema data = [] ->
  prismaClient.lookup (Signup.email data) (users w) = None ->
  fst (hashPassword (Signup.password data) w) = Return digest ->
  let u := User.mk (assign_id (users w)) (Signup.email data) digest "user"
                   (Signup.first_name data) (Signup.last_name data) in
  Current.signupFn data w
  = (Return (VObj [("error", VBool false);
                   ("message", VStr "user created");
                   ("issues", VNull)]),
     mkWorld (users w ++ [u]) (session_of u))
  /\ prismaClient.lookup (Signup.email data) (users w ++ [u]) = Some u.
Proof.
  intros Hvalid Hnone Hhash u. split.
  - rewrite (signupFn_accepted _ _ Hvalid).
    now apply signupHandler_new.
  - now apply (lookup_app_new (users w) u).
Qed.

Lemma redirect_target_spec (redirectUrl : option string) :
  Legacy.redirect_target redirectUrl
  = match redirectUrl with
    | Some "" | None => "/"
    | Some url => url
    end.
Proof.
  destruct redirectUrl as [[|c url]|]; reflexivity.
Qed.

Lemma legacy_signupFn_new (data : Signup.t) (w : World) (digest : string) :
  signupSchema data = [] ->
  prismaClient.lookup (Signup.email data) (users w) = None ->
  fst (hashPassword (Signup.password data) w) = Return digest ->
  let u := User.mk (assign_id (users w)) (Signup.email data) digest "user"
                   (Signup.first_name data) (Signup.last_name data) in
  Legacy.signupFn data w
  = (Throw (RedirectExn
              (mkRedirect (Legacy.redirect_target (Signup.redirectUrl data))
                          301)),
     mkWorld (users w ++ [u]) (session_of u)).
Proof.
  intros Hvalid Hnone Hhash u.
  unfold Legacy.signupFn, bind, prismaClient.findUnique.
  rewrite Hnone. unfold z.safeParse. rewrite Hvalid.
  rewrite (hashPassword_returns _ _ _ Hhash).
  unfold prismaClient.create. now rewrite Hnone.
Qed.

(** X2.  The older [signupFn] on an accepted payload with a new e-mail, when
    hashing succeeds, makes the same row and session as the current one and
    then throws a redirect (301) to [redirectUrl]; a missing or empty
    [redirectUrl] sends to ["/"]. *)
Theorem legacy_signup_creates_user (data : Signup.t) (w : World)
  (digest : string) :
  signupSchema data = [] ->
  prismaClient.lookup (Signup.email data) (users w) = None ->
  fst (hashPassword (Signup.password data) w) = Return digest ->
  let target := match Signup.redirectUrl data with
                | Some "" | None => "/"
                | Some url => url
                end in
  Legacy.signupFn data w
  = (Throw (RedirectExn (mkRedirect target 301)),
     snd (Current.signupFn data w)).
Proof.
  intros Hvalid Hnone Hhash target.
  rewrite (legacy_signupFn_new _ _ _ Hvalid Hnone Hhash).
  rewrite (signupFn_accepted _ _ Hvalid).
  rewrite (signupHandler_new _ _ _ Hnone Hhash).
  unfold target. now rewrite <- redirect_target_spec.
Qed.

Lemma signin_of_signup (data : Signup.t) :
  signupSchema data = [] ->
  signinSchema (Signin.mk (Signup.email data) (Signup.password data)) = [].
Proof.
  rewrite signupSchema_accepts, signinSchema_accepts. simpl. tauto.
Qed.

(** X3.  Whatever the e-mail pattern is, a payload the signup schema accepts
    carries credentials the sign-in schema accepts, so the validator of
    [loginFn] never locks out an account made by [signupFn]; the converse
    fails only through the names: credentials the sign-in schema accepts
    make an accepted signup payload with any two non-empty names. *)
Theorem signup_accepted_signin_accepted (data : Signup.t) :
  (signupSchema data = [] ->
   signinSchema (Signin.mk (Signup.email data) (Signup.password data)) = [])
  /\ (signinSchema (Signin.mk (Signup.email data) (Signup.password data)) = [] ->
      Signup.first_name data <> "" -> Signup.last_name data <> "" ->
      signupSchema data = []).
Proof.
  split; [apply signin_of_signup|].
  rewrite signupSchema_accepts, signinSchema_accepts. simpl.
  intros [Hemail Hpassword] Hfirst Hlast.
  apply nonempty_length in Hfirst, Hlast. tauto.
Qed.

(** X4.  Signup, then login with the same credentials, from any session
    state in between (for instance after a logout): the login succeeds and
    the session is again that of the new user, with role ["user"].  The
    current [loginFn] returns the logged-in result; the older one throws its
    redirect to [/home]. *)
Theorem signup_then_login (data : Signup.t) (w : World) (digest : string)
  (between : SessionUser.t) :
  signupSchema data = [] ->
  prismaClient.lookup (Signup.email data) (users w) = None ->
  fst (hashPassword (Signup.password data) w) = Return digest ->
  let created := snd (Current.signupFn data w) in
  let credentials := Signin.mk (Signup.email data) (Signup.password data) in
  snd (Legacy.signupFn data w) = created
  /\ Current.loginFn credentials (mkWorld (users created) between)
     = (Return (VObj [("error", VBool false);
                      ("userNotFound", VBool false);
                      ("message", VStr "Logged in")]), created)
  /\ Legacy.loginFn credentials (mkWorld (users created) between)
     = (Throw (RedirectExn (mkRedirect "/home" 301)), created)
  /\ SessionUser.email (session created) = Some (Signup.email data)
  /\ SessionUser.role (session created) = Some "user".
Proof.
  intros Hvalid Hnone Hhash created credentials.
  subst created credentials.
  rewrite (legacy_signupFn_new _ _ _ Hvalid Hnone Hhash).
  rewrite (signupFn_accepted _ _ Hvalid).
  rewrite (signupHandler_new _ _ _ Hnone Hhash). simpl.
  set (u := User.mk (assign_id (users w)) (Signup.email data) digest "user"
                    (Signup.first_name data) (Signup.last_name data)).
  set (credentials := Signin.mk (Signup.email data) (Signup.password data)).
  assert (Hlookup : prismaClient.lookup (Signin.email credentials)
                      (users (mkWorld (users w ++ [u]) between)) = Some u)
    by (now apply (lookup_app_new (users w) u)).
  assert (Hhash' : fst (hashPassword (Signin.password credentials)
                          (mkWorld (users w ++ [u]) between))
                   = Return digest).
  { simpl. now rewrite (hashPassword_returns _ _ _ Hhash). }
  repeat split.
  - rewrite (loginFn_accepted credentials _ (signin_of_signup _ Hvalid)).
    rewrite (loginHandler_found _ _ _ _ Hlookup Hhash').
    simpl. now rewrite String.eqb_refl.
  - rewrite (legacy_loginFn_found _ _ _ _ Hlookup Hhash').
    simpl. now rewrite String.eqb_refl.
Qed.

(** ** When hashing fails *)

Lemma hashPassword_fails (password : string) (err : JsError) (w : World) :
  pbkdf2 password "salt" 100000 64 "sha256" = inl err ->
  hashPassword password w = (Throw (ErrorExn err), w).
Proof. intros Hkdf. now rewrite hashPassword_run, Hkdf. Qed.

Lemma hashPassword_cases (password : string) (w : World) :
  (exists err, pbkdf2 password "salt" 100000 64 "sha256" = inl err)
  \/ (exists digest, fst (hashPassword password w) = Return digest).
Proof.
  rewrite hashPassword_run.
  destruct (pbkdf2 password "salt" 100000 64 "sha256") as [err|key].
  - left. now exists err.
  - right. now exists (to_hex key).
Qed.

(** X5.  When [pbkdf2] reports an error, the error reaches the caller as it
    is and nothing is written: a login for a known e-mail and a signup for a
    new e-mail both throw it, no row is created and the session stays.  A
    login for an unknown e-mail does not hash at all and still returns its
    user-not-found result. *)
Theorem hashing_failure_propagates (w : World) (err : JsError) :
  (forall data u,
      pbkdf2 (Signin.password data) "salt" 100000 64 "sha256" = inl err ->
      prismaClient.lookup (Signin.email data) (users w) = Some u ->
      Current.loginHandler data w = (Throw (ErrorExn err), w)
      /\ Legacy.loginFn data w = (Throw (ErrorExn err), w))
  /\ (forall data,
         pbkdf2 (Signup.password data) "salt" 100000 64 "sha256" = inl err ->
         prismaClient.lookup (Signup.email data) (users w) = None ->
         Current.signupHandler data w = (Throw (ErrorExn err), w)
         /\ (signupSchema data = [] ->
             Legacy.signupFn data w = (Throw (ErrorExn err), w)))
  /\ (forall data,
         pbkdf2 (Signin.password data) "salt" 100000 64 "sha256" = inl err ->
         prismaClient.lookup (Signin.email data) (users w) = None ->
         Legacy.loginFn data w
         = (Return (VObj [("error", VBool true);
                          ("userNotFound", VBool true);
                          ("message", VStr "User not found")]), w)).
Proof.
  split; [|split].
  - intros data u Hkdf Hfound. split.
    + unfold Current.loginHandler, bind, prismaClient.findUnique.
      now rewrite Hfound, (hashPassword_fails _ _ _ Hkdf).
    + unfold Legacy.loginFn, bind, prismaClient.findUnique.
      now rewrite Hfound, (hashPassword_fails _ _ _ Hkdf).
  - intros data Hkdf Hnone. split.
    + unfold Current.signupHandler, bind, prismaClient.findUnique.
      now rewrite Hnone, (hashPassword_fails _ _ _ Hkdf).
    + intros Hvalid.
      unfold Legacy.signupFn, bind, prismaClient.findUnique.
      rewrite Hnone. unfold z.safeParse. rewrite Hvalid.
      now rewrite (hashPassword_fails _ _ _ Hkdf).
  - intros data _ Hnone.
    unfold Legacy.loginFn, bind, prismaClient.findUnique.
    now rewrite Hnone.
Qed.

(** ** What a call can change *)

Lemma schema_cases {A} (schema : A -> list ZodIssue) (data : A) :
  schema data = [] \/ schema data <> [].
Proof. destruct (schema data); [now left | now right]. Qed.

Lemma current_login_cases (data : Signin.t) (w : World) :
  snd (Current.loginFn data w) = w
  \/ exists u,
      prismaClient.lookup (Signin.email data) (users w) = Some u
      /\ fst (hashPassword (Signin.password data) w) = Return (User.password u)
      /\ Current.loginFn data w
         = (Return (VObj [("error", VBool false);
                          ("userNotFound", VBool false);
                          ("message", VStr "Logged in")]),
            mkWorld (users w) (session_of u)).
Proof.
  destruct (schema_cases signinSchema data) as [Hvalid|Hinvalid].
  2: { left. now rewrite (loginFn_rejected _ _ Hinvalid). }
  rewrite (loginFn_accepted _ _ Hvalid).
  destruct (prismaClient.lookup (Signin.email data) (users w)) as [u|] eqn:Hfound.
  2: { left. unfold Current.loginHandler, bind, prismaClient.findUnique.
       now rewrite Hfound. }
  destruct (hashPassword_cases (Signin.password data) w)
    as [[err Hkdf]|[digest Hhash]].
  { left. unfold Current.loginHandler, bind, prismaClient.findUnique.
    now rewrite Hfound, (hashPassword_fails _ _ _ Hkdf). }
  rewrite (loginHandler_found _ _ _ _ Hfound Hhash).
  destruct (String.eqb_spec (User.password u) digest) as [Heq|Hne].
  - right. exists u. subst digest. now repeat split.
  - now left.
Qed.

Lemma legacy_login_cases (data : Signin.t) (w : World) :
  snd (Legacy.loginFn data w) = w
  \/ exists u,
      prismaClient.lookup (Signin.email data) (users w) = Some u
      /\ fst (hashPassword (Signin.password data) w) = Return (User.password u)
      /\ Legacy.loginFn data w
         = (Throw (RedirectExn (mkRedirect "/home" 301)),
            mkWorld (users w) (session_of u)).
Proof.
  destruct (prismaClient.lookup (Signin.email data) (users w)) as [u|] eqn:Hfound.
  2: { left. unfold Legacy.loginFn, bind, prismaClient.findUnique.
       now rewrite Hfound. }
  destruct (hashPassword_cases (Signin.password data) w)
    as [[err Hkdf]|[digest Hhash]].
  { left. unfold Legacy.loginFn, bind, prismaClient.findUnique.
    now rewrite Hfound, (hashPassword_fails _ _ _ Hkdf). }
  rewrite (legacy_loginFn_found _ _ _ _ Hfound Hhash).
  destruct (String.eqb_spec (User.password u) digest) as [Heq|Hne].
  - right. exists u. subst digest. now repeat split.
  - now left.
Qed.

Lemma current_signup_cases (data : Signup.t) (w : World) :
  snd (Current.signupFn data w) = w
  \/ exists u,
      prismaClient.lookup (Signup.email data) (users w) = None
      /\ User.email u = Signup.email data
      /\ User.role u = "user"
      /\ fst (hashPassword (Signup.password data) w) = Return (User.password u)
      /\ snd (Current.signupFn data w) = mkWorld (users w ++ [u]) (session_of u).
Proof.
  destruct (schema_cases signupSchema data) as [Hvalid|Hinvalid].
  2: { left. now rewrite (signupFn_rejected _ _ Hinvalid). }
  rewrite (signupFn_accepted _ _ Hvalid).
  destruct (prismaClient.lookup (Signup.email data) (users w)) as [u|] eqn:Hfound.
  { left. unfold Current.signupHandler, bind, prismaClient.findUnique.
    now rewrite Hfound. }
  destruct (hashPassword_cases (Signup.password data) w)
    as [[err Hkdf]|[digest Hhash]].
  { left. unfold Current.signupHandler, bind, prismaClient.findUnique.
    now rewrite Hfound, (hashPassword_fails _ _ _ Hkdf). }
  right. rewrite (signupHandler_new _ _ _ Hfound Hhash).
  exists (User.mk (assign_id (users w)) (Signup.email data) digest "user"
                  (Signup.first_name data) (Signup.last_name data)).
  now repeat split.
Qed.

Lemma legacy_signup_cases (data : Signup.t) (w : World) :
  snd (Legacy.signupFn data w) = w
  \/ exists u,
      prismaClient.lookup (Signup.email data) (users w) = None
      /\ User.email u = Signup.email data
      /\ User.role u = "user"
      /\ fst (hashPassword (Signup.password data) w) = Return (User.password u)
      /\ snd (Legacy.signupFn data w) = mkWorld (users w ++ [u]) (session_of u).
Proof.
  destruct (prismaClient.lookup (Signup.email data) (users w)) as [u|] eqn:Hfound.
  { left. unfold Legacy.signupFn, bind, prismaClient.findUnique.
    now rewrite Hfound. }
  destruct (schema_cases signupSchema data) as [Hvalid|Hinvalid].
  2: { left. unfold Legacy.signupFn, bind, prismaClient.findUnique.
       now rewrite Hfound, (safeParse_rejects _ _ Hinvalid). }
  destruct (hashPassword_cases (Signup.password data) w)
    as [[err Hkdf]|[digest Hhash]].
  { left. unfold Legacy.signupFn, bind, prismaClient.findUnique.
    rewrite Hfound. unfold z.safeParse. rewrite Hvalid.
    now rewrite (hashPassword_fails _ _ _ Hkdf). }
  right. rewrite (legacy_signupFn_new _ _ _ Hvalid Hfound Hhash).
  exists (User.mk (assign_id (users w)) (Signup.email data) digest "user"
                  (Signup.first_name data) (Signup.last_name data)).
  now repeat split.
Qed.

(** X6.  A login writes the session only for matching credentials.  For
    every payload and state, either [loginFn] leaves the state as it was,
    or the table holds a user with that e-mail whose stored digest is the
    hash of the given password, and the new session is that user's; the
    user table is never changed.  This holds in both variants. *)
Theorem login_writes_only_on_match (data : Signin.t) (w : World)
  (login : Signin.t -> M Value) :
  login = Current.loginFn \/ login = Legacy.loginFn ->
  users (snd (login data w)) = users w
  /\ (snd (login data w) = w
      \/ exists u,
          prismaClient.lookup (Signin.email data) (users w) = Some u
          /\ fst (hashPassword (Signin.password data) w)
             = Return (User.password u)
          /\ snd (login data w) = mkWorld (users w) (session_of u)).
Proof.
  intros [->| ->].
  - destruct (current_login_cases data w) as [Hsame|[u [Hfound [Hhash Hrun]]]].
    + rewrite Hsame. split; [reflexivity | now left].
    + rewrite Hrun. split; [reflexivity|]. right. now exists u.
  - destruct (legacy_login_cases data w) as [Hsame|[u [Hfound [Hhash Hrun]]]].
    + rewrite Hsame. split; [reflexivity | now left].
    + rewrite Hrun. split; [reflexivity|]. right. now exists u.
Qed.

Lemma signup_cases (data : Signup.t) (w : World) (signup : Signup.t -> M Value) :
  signup = Current.signupFn \/ signup = Legacy.signupFn ->
  snd (signup data w) = w
  \/ exists u,
      prismaClient.lookup (Signup.email data) (users w) = None
      /\ User.email u = Signup.email data
      /\ User.role u = "user"
      /\ fst (hashPassword (Signup.password data) w) = Return (User.password u)
      /\ snd (signup data w) = mkWorld (users w ++ [u]) (session_of u).
Proof.
  intros [->| ->]; [apply current_signup_cases | apply legacy_signup_cases].
Qed.

(** X7.  A signup never removes or alters a row.  For every payload and
    state, either [signupFn] leaves the state as it was, or the e-mail was
    not in the table and exactly one row is appended, with that e-mail, the
    role ["user"] and the digest of the given password, the session becoming
    that of the new row.  So a table without duplicate e-mails stays
    without duplicates.  This holds in both variants. *)
Theorem signup_keeps_table (data : Signup.t) (w : World)
  (signup : Signup.t -> M Value) :
  signup = Current.signupFn \/ signup = Legacy.signupFn ->
  (snd (signup data w) = w
   \/ exists u,
       prismaClient.lookup (Signup.email data) (users w) = None
       /\ User.email u = Signup.email data
       /\ User.role u = "user"
       /\ fst (hashPassword (Signup.password data) w)
          = Return (User.password u)
       /\ snd (signup data w) = mkWorld (users w ++ [u]) (session_of u))
  /\ (NoDup (emails (users w)) -> NoDup (emails (users (snd (signup data w))))).
Proof.
  intros Hvariant.
  pose proof (signup_cases data w signup Hvariant) as Hcases.
  split; [exact Hcases|]. intros Hnodup.
  destruct Hcases as [Hsame|[u [Hnone [Hemail [_ [_ Hrun]]]]]].
  - now rewrite Hsame.
  - rewrite Hrun. simpl. apply emails_app_new; [exact Hnodup|].
    now rewrite Hemail.
Qed.

(** X8.  The four server functions keep the session in step with the
    table: if a logged-in session mirrors a row before the call (or nobody
    is logged in), the same is true after it, whatever the payload. *)
Theorem session_stays_valid (w : World) :
  session_valid w ->
  (forall data, session_valid (snd (Current.loginFn data w)))
  /\ (forall data, session_valid (snd (Legacy.loginFn data w)))
  /\ (forall data, session_valid (snd (Current.signupFn data w)))
  /\ (forall data, session_valid (snd (Legacy.signupFn data w))).
Proof.
  intros Hvalid.
  assert (Hlogin : forall u, In u (users w) ->
                     session_valid (mkWorld (users w) (session_of u)))
    by (intros u Hin _; now exists u).
  assert (Hsignup : forall u,
             session_valid (mkWorld (users w ++ [u]) (session_of u))).
  { intros u _. exists u. split; [|reflexivity].
    apply in_or_app. right. now left. }
  repeat split; intros data.
  - destruct (current_login_cases data w) as [->|[u [Hfound [_ ->]]]];
      [exact Hvalid | apply Hlogin; now apply lookup_row in Hfound].
  - destruct (legacy_login_cases data w) as [->|[u [Hfound [_ ->]]]];
      [exact Hvalid | apply Hlogin; now apply lookup_row in Hfound].
  - destruct (current_signup_cases data w) as [->|[u [_ [_ [_ [_ ->]]]]]];
      [exact Hvalid | apply Hsignup].
  - destruct (legacy_signup_cases data w) as [->|[u [_ [_ [_ [_ ->]]]]]];
      [exact Hvalid | apply Hsignup].
Qed.

(** ** The resolvers and the home loader *)

Lemma session_email_cases (w : World) :
  truthy_str (SessionUser.email (session w)) = false
  \/ exists e, SessionUser.email (session w) = Some e /\ e <> "".
Proof.
  destruct (truthy_str (SessionUser.email (session w))) eqn:Htruthy.
  - right. now apply truthy_str_some.
  - now left.
Qed.

Lemma getCurrentUser_no_session (w : World) :
  truthy_str (SessionUser.email (session w)) = false ->
  getCurrentUser w = (Throw (ErrorExn (mkError "Not authenticated")), w).
Proof.
  intros Hnone. unfold getCurrentUser, bind, useAppSession.data.
  destruct (SessionUser.email (session w)) as [e|]; [|reflexivity].
  simpl in Hnone |- *. now rewrite Hnone.
Qed.

(** X9.  The probe and the strict accessor read the session the same way
    and write nothing: in every state, [fetchSessionUser] returns [null]
    exactly when [getCurrentUser] throws ['Not authenticated'], and
    otherwise [getCurrentUser] returns (a profile or [null]) without
    throwing. *)
Theorem probe_agrees_with_strict (w : World) :
  snd (fetchSessionUser w) = w
  /\ snd (getCurrentUser w) = w
  /\ (fst (fetchSessionUser w) = Return VNull <->
      fst (getCurrentUser w) = Throw (ErrorExn (mkError "Not authenticated")))
  /\ (fst (fetchSessionUser w) <> Return VNull ->
      exists user, fst (getCurrentUser w) = Return user).
Proof.
  rewrite fetchSessionUser_run.
  destruct (session_email_cases w) as [Hnone|[e [Hemail Hne]]].
  - rewrite (getCurrentUser_no_session _ Hnone), Hnone. simpl.
    repeat split; congruence.
  - rewrite (getCurrentUser_session _ _ Hemail Hne).
    assert (Htruthy : truthy_str (SessionUser.email (session w)) = true)
      by (apply truthy_str_some; now exists e).
    rewrite Htruthy. simpl. repeat split.
    + unfold SessionUser.spread. discriminate.
    + discriminate.
    + intros _. eexists. reflexivity.
Qed.

(** X10.  The loader of [/_authed/home] has three outcomes and changes no
    state: without an e-mail in the session (absent or empty) it throws
    ['Not authenticated']; with the e-mail of a stored user it returns [{
    userData }] holding that user's profile; with an e-mail no user has (a
    stale session) it returns the data [{ status: 401, redirect: '/' }]
    and does not throw. *)
Theorem home_loader_outcomes (w : World) :
  HomeRoute.loader w
  = (match SessionUser.email (session w) with
     | None | Some "" => Throw (ErrorExn (mkError "Not authenticated"))
     | Some e =>
         match prismaClient.lookup e (users w) with
         | Some u =>
             Return (VObj [("userData",
                            VObj [("id", User.id u);
                                  ("email", VStr (User.email u));
                                  ("role", VStr (User.role u));
                                  ("first_name", VStr (User.first_name u));
                                  ("last_name", VStr (User.last_name u))])])
         | None => Return (VObj [("status", VNum 401); ("redirect", VStr "/")])
         end
     end, w).
Proof.
  unfold HomeRoute.loader, bind.
  destruct (session_email_cases w) as [Hnone|[e [Hemail Hne]]].
  - rewrite (getCurrentUser_no_session _ Hnone).
    destruct (SessionUser.email (session w)) as [[|c e]|];
      [reflexivity | discriminate Hnone | reflexivity].
  - rewrite (getCurrentUser_session _ _ Hemail Hne), Hemail.
    destruct e as [|c e]; [congruence|].
    now destruct (prismaClient.lookup (String c e) (users w)).
Qed.

(** X11.  A navigation to [/_authed/home] never shows the login form or an
    error page and changes no state: it is redirected to ["/"] (301) when
    the session has no e-mail, and otherwise the loader returns and the page
    is rendered with the session as user context. *)
Theorem home_navigation (w : World) :
  (truthy_str (SessionUser.email (session w)) = false ->
   Router.navigate HomeRoute.loader w = (Redirected (mkRedirect "/" 301), w))
  /\ (truthy_str (SessionUser.email (session w)) = true ->
      exists loaderData,
        HomeRoute.loader w = (Return loaderData, w)
        /\ Router.navigate HomeRoute.loader w
           = (Rendered (Outlet (VObj [("user", SessionUser.spread (session w))])
                               loaderData), w)).
Proof.
  split; intros Htruthy.
  - unfold Router.navigate. now rewrite root_beforeLoad_run, Htruthy.
  - destruct (home_loader_returns w Htruthy) as [loaderData Hrun].
    exists loaderData. split; [exact Hrun|].
    unfold Router.navigate. rewrite root_beforeLoad_run, Htruthy.
    change (Route.beforeLoad (VObj [("user", SessionUser.spread (session w))]))
      with (@None Redirect).
    now rewrite Hrun.
Qed.

(** X12.  After a successful login the resolvers see the user: the probe
    returns [{ email, role, id }] of the stored user and [getCurrentUser]
    returns that user's profile.  Both variants of [loginFn] leave the same
    state. *)
Theorem login_then_resolvers (data : Signin.t) (w : World) (u : User.t) :
  signinSchema data = [] ->
  Signin.email data <> "" ->
  prismaClient.lookup (Signin.email data) (users w) = Some u ->
  fst (hashPassword (Signin.password data) w) = Return (User.password u) ->
  let w' := snd (Current.loginFn data w) in
  snd (Legacy.loginFn data w) = w'
  /\ fetchSessionUser w'
     = (Return (VObj [("email", VStr (Signin.email data));
                      ("role", VStr (User.role u));
                      ("id", User.id u)]), w')
  /\ getCurrentUser w'
     = (Return (VObj [("id", User.id u);
                      ("email", VStr (Signin.email data));
                      ("role", VStr (User.role u));
                      ("first_name", VStr (User.first_name u));
                      ("last_name", VStr (User.last_name u))]), w').
Proof.
  intros Hvalid Hne Hfound Hhash w'. subst w'.
  rewrite (loginFn_accepted _ _ Hvalid).
  rewrite (loginHandler_found _ _ _ _ Hfound Hhash).
  rewrite (legacy_loginFn_found _ _ _ _ Hfound Hhash).
  rewrite String.eqb_refl. simpl.
  pose proof (lookup_email _ _ _ Hfound) as Hemail.
  assert (Hnonempty : (User.email u =? "") = false)
    by (apply String.eqb_neq; congruence).
  repeat split.
  - rewrite fetchSessionUser_run. simpl. rewrite Hnonempty. simpl.
    unfold SessionUser.spread. simpl. now rewrite Hemail.
  - rewrite (getCurrentUser_session _ (User.email u));
      [| reflexivity | congruence].
    simpl. rewrite <- Hemail in Hfound |- *. now rewrite Hfound.
Qed.

(** ** The seed script *)

Lemma seed_run (w : World) :
  Seed.main w
  = match pbkdf2 "adminpassword" "salt" 100000 64 "sha256" with
    | inl err => (Throw (ErrorExn err), w)
    | inr key =>
        (Return tt,
         mkWorld [User.mk (assign_id []) "admin@example.com" (to_hex key)
                          "admin" "Admin" "User"]
                 (session w))
    end.
Proof.
  unfold Seed.main, bind. rewrite hashPassword_run.
  now destruct (pbkdf2 "adminpassword" "salt" 100000 64 "sha256").
Qed.

(** X13.  The seed script replaces the whole table by one administrator
    row, whatever the table held, and leaves the session alone.  It hashes
    before it deletes: when hashing fails, the error is thrown and no row is
    lost.  Running it again gives again that single row, the same in every
    column other than [id]. *)
Theorem seed_resets_table (w : World) :
  match pbkdf2 "adminpassword" "salt" 100000 64 "sha256" with
  | inl err => Seed.main w = (Throw (ErrorExn err), w)
  | inr key =>
      exists id,
        Seed.main w
        = (Return tt,
           mkWorld [User.mk id "admin@example.com" (to_hex key) "admin"
                            "Admin" "User"]
                   (session w))
  end
  /\ session (snd (Seed.main w)) = session w
  /\ map row_without_id (users (snd (Seed.main (snd (Seed.main w)))))
     = map row_without_id (users (snd (Seed.main w))).
Proof.
  rewrite !seed_run.
  destruct (pbkdf2 "adminpassword" "salt" 100000 64 "sha256") as [err|key];
    simpl; repeat split.
  eexists. reflexivity.
Qed.

(** X14.  After the seed script has run, the administrator can log in with
    ["adminpassword"] from any session state and gets a session with role
    ["admin"]; a session for any other e-mail has become stale, so that
    [getCurrentUser] returns [null] for it. *)
Theorem seed_then_login (w : World) (digest : string)
  (between : SessionUser.t) :
  email_format "admin@example.com" = true ->
  fst (hashPassword "adminpassword" w) = Return digest ->
  let seeded := users (snd (Seed.main w)) in
  let admin := User.mk (assign_id []) "admin@example.com" digest "admin"
                       "Admin" "User" in
  let credentials := Signin.mk "admin@example.com" "adminpassword" in
  seeded = [admin]
  /\ Current.loginFn credentials (mkWorld seeded between)
     = (Return (VObj [("error", VBool false);
                      ("userNotFound", VBool false);
                      ("message", VStr "Logged in")]),
        mkWorld seeded (session_of admin))
  /\ Legacy.loginFn credentials (mkWorld seeded between)
     = (Throw (RedirectExn (mkRedirect "/home" 301)),
        mkWorld seeded (session_of admin))
  /\ (forall e,
         SessionUser.email between = Some e ->
         e <> "" -> e <> "admin@example.com" ->
         getCurrentUser (mkWorld seeded between)
         = (Return VNull, mkWorld seeded between)).
Proof.
  intros Hformat Hhash seeded admin credentials.
  assert (Hseeded : seeded = [admin]).
  { subst seeded. rewrite seed_run. rewrite hashPassword_run in Hhash.
    destruct (pbkdf2 "adminpassword" "salt" 100000 64 "sha256") as [err|key];
      [discriminate Hhash|].
    simpl in Hhash. injection Hhash as <-. reflexivity. }
  rewrite Hseeded. clear Hseeded seeded.
  assert (Hfound : prismaClient.lookup (Signin.email credentials)
                     (users (mkWorld [admin] between)) = Some admin)
    by reflexivity.
  assert (Hhash' : fst (hashPassword (Signin.password credentials)
                          (mkWorld [admin] between))
                   = Return digest).
  { simpl. now rewrite (hashPassword_returns _ _ _ Hhash). }
  assert (Hvalid : signinSchema credentials = []).
  { apply signinSchema_accepts. split; [exact Hformat|]. simpl. lia. }
  repeat split.
  - rewrite (loginFn_accepted _ _ Hvalid).
    rewrite (loginHandler_found _ _ _ _ Hfound Hhash').
    simpl. now rewrite String.eqb_refl.
  - rewrite (legacy_loginFn_found _ _ _ _ Hfound Hhash').
    simpl. now rewrite String.eqb_refl.
  - intros e Hemail Hne Hother.
    rewrite (getCurrentUser_session (mkWorld [admin] between) e Hemail Hne).
    assert (Hgone : prismaClient.lookup e [admin] = None).
    { unfold prismaClient.lookup, find.
      change (User.email admin) with "admin@example.com".
      destruct (String.eqb_spec "admin@example.com" e) as [Heq|_];
        [congruence | reflexivity]. }
    change (users (mkWorld [admin] between)) with [admin].
    now rewrite Hgone.
Qed.

(** ** The digest *)

Lemma hex_digit_inj (n m : N) :
  (n < 16)%N -> (m < 16)%N -> hex_digit n = hex_digit m -> n = m.
Proof.
  intros Hn Hm H.
  set (digits := map N.of_nat (seq 0 16)).
  assert (Hin : forall k, (k < 16)%N -> In k digits).
  { intros k Hk. unfold digits. apply in_map_iff. exists (N.to_nat k).
    split; [apply N2Nat.id|]. apply in_seq. lia. }
  assert (Hall : forallb (fun a =>
                   forallb (fun b => implb (Ascii.eqb (hex_digit a) (hex_digit b))
                                           (N.eqb a b)) digits) digits = true)
    by reflexivity.
  rewrite forallb_forall in Hall. specialize (Hall n (Hin n Hn)).
  rewrite forallb_forall in Hall. specialize (Hall m (Hin m Hm)).
  rewrite H, Ascii.eqb_refl in Hall. now apply N.eqb_eq.
Qed.

Lemma to_hex_inj (key1 key2 : list byte) :
  to_hex key1 = to_hex key2 -> key1 = key2.
Proof.
  revert key2. induction key1 as [|b1 rest1 IH]; intros [|b2 rest2]; simpl;
    try discriminate; [reflexivity|].
  intros H. injection H as Hhigh Hlow Hrest.
  pose proof (Byte.to_N_bounded b1) as Hb1.
  pose proof (Byte.to_N_bounded b2) as Hb2.
  assert (Hhi : (Byte.to_N b1 / 16 = Byte.to_N b2 / 16)%N).
  { apply hex_digit_inj; [| |exact Hhigh];
      apply N.Div0.div_lt_upper_bound; lia. }
  assert (Hlo : (Byte.to_N b1 mod 16 = Byte.to_N b2 mod 16)%N).
  { apply hex_digit_inj; [| |exact Hlow]; apply N.mod_lt; lia. }
  assert (Hn : Byte.to_N b1 = Byte.to_N b2).
  { rewrite (N.div_mod (Byte.to_N b1) 16), (N.div_mod (Byte.to_N b2) 16) by lia.
    now rewrite Hhi, Hlo. }
  assert (Hb : Some b1 = Some b2)
    by (now rewrite <- (Byte.of_to_N b1), <- (Byte.of_to_N b2), Hn).
  injection Hb as ->. f_equal. now apply IH.
Qed.

(** X15.  The hex rendering loses nothing of the derived key: two
    plaintexts get the same digest only when [pbkdf2] derives the same key
    for both.  So two stored digests are equal exactly when the keys are. *)
Theorem equal_digests_equal_keys (password1 password2 digest : string)
  (w1 w2 : World) :
  fst (hashPassword password1 w1) = Return digest ->
  fst (hashPassword password2 w2) = Return digest ->
  exists key,
    pbkdf2 password1 "salt" 100000 64 "sha256" = inr key
    /\ pbkdf2 password2 "salt" 100000 64 "sha256" = inr key
    /\ digest = to_hex key.
Proof.
  rewrite !hashPassword_run. simpl.
  destruct (pbkdf2 password1 "salt" 100000 64 "sha256") as [e1|key1];
    [discriminate|].
  destruct (pbkdf2 password2 "salt" 100000 64 "sha256") as [e2|key2];
    [discriminate|].
  intros [= <-] [= Heq]. apply to_hex_inj in Heq. subst key2.
  now exists key1.
Qed.

(** ** The issues of the signup schema *)

(** X16.  The signup schema reports each failing property once, in the
    order [email], [password], [first_name], [last_name], and reports no
    other: a property is among the paths of the issues exactly when its
    check fails. *)
Theorem signup_issues_paths (data : Signup.t) :
  let paths := map issue_path (signupSchema data) in
  NoDup paths
  /\ incl paths ["email"; "password"; "first_name"; "last_name"]
  /\ (In "email" paths <-> email_format (Signup.email data) = false)
  /\ (In "password" paths <-> String.length (Signup.password data) < 6)
  /\ (In "first_name" paths <-> Signup.first_name data = "")
  /\ (In "last_name" paths <-> Signup.last_name data = "").
Proof.
  unfold signupSchema, z.email, z.min.
  assert (Hempty : forall s, String.length s < 1 <-> s = "").
  { intros [|c s]; simpl; split; intros H; try reflexivity; try lia.
    discriminate H. }
  rewrite <- !Hempty.
  destruct (email_format (Signup.email data));
    destruct (Nat.ltb_spec (String.length (Signup.password data)) 6);
    destruct (Nat.ltb_spec (String.length (Signup.first_name data)) 1);
    destruct (Nat.ltb_spec (String.length (Signup.last_name data)) 1);
    simpl; (split; [repeat constructor; simpl; intuition discriminate|]);
    (split; [intros p Hp; simpl in *; intuition|]);
    repeat split; intros; simpl in *;
    try lia; try discriminate; try reflexivity; intuition (try discriminate; try lia).
Qed.

End Coverage.

(** * Further runs on the sample platform *)

Section CoverageRuns.
Local Existing Instance Sample.platform.

Lemma newcomer_ready :
  signupSchema Sample.newcomer = []
  /\ prismaClient.lookup (Signup.email Sample.newcomer) (users Sample.logged_out)
     = None
  /\ fst (hashPassword (Signup.password Sample.newcomer) Sample.logged_out)
     = Return (User.password Sample.newcomer_row).
Proof. repeat split. Qed.

(** X1 at the newcomer. *)
Lemma signup_creates_user_witness :
  Current.signupFn Sample.newcomer Sample.logged_out
  = (Return (VObj [("error", VBool false);
                   ("message", VStr "user created");
                   ("issues", VNull)]),
     mkWorld [Sample.admin; Sample.member; Sample.newcomer_row]
             (session_of Sample.newcomer_row))
  /\ prismaClient.lookup "sam@example.com"
       [Sample.admin; Sample.member; Sample.newcomer_row]
     = Some Sample.newcomer_row.
Proof.
  destruct newcomer_ready as [Hvalid [Hnone Hhash]].
  exact (signup_creates_user Sample.newcomer Sample.logged_out
           (User.password Sample.newcomer_row) Hvalid Hnone Hhash).
Defined.

(** X2 at the newcomer, whose payload asks for [/posts]. *)
Lemma legacy_signup_creates_user_witness :
  Legacy.signupFn Sample.newcomer Sample.logged_out
  = (Throw (RedirectExn (mkRedirect "/posts" 301)),
     snd (Current.signupFn Sample.newcomer Sample.logged_out)).
Proof.
  destruct newcomer_ready as [Hvalid [Hnone Hhash]].
  exact (legacy_signup_creates_user Sample.newcomer Sample.logged_out
           (User.password Sample.newcomer_row) Hvalid Hnone Hhash).
Defined.

(** X3 at the newcomer. *)
Lemma signup_accepted_signin_accepted_witness :
  signupSchema Sample.newcomer = []
  /\ signinSchema (Signin.mk "sam@example.com" "s3cret-pw") = [].
Proof.
  destruct newcomer_ready as [Hvalid _]. split; [exact Hvalid|].
  exact (proj1 (signup_accepted_signin_accepted Sample.newcomer) Hvalid).
Defined.

(** X4 at the newcomer, logging in from an empty session. *)
Lemma signup_then_login_witness :
  let created := mkWorld [Sample.admin; Sample.member; Sample.newcomer_row]
                         (session_of Sample.newcomer_row) in
  Current.loginFn (Signin.mk "sam@example.com" "s3cret-pw")
                  (mkWorld (users created) SessionUser.empty)
  = (Return (VObj [("error", VBool false);
                   ("userNotFound", VBool false);
                   ("message", VStr "Logged in")]), created)
  /\ SessionUser.role (session created) = Some "user".
Proof.
  intros created.
  destruct newcomer_ready as [Hvalid [Hnone Hhash]].
  destruct (signup_then_login Sample.newcomer Sample.logged_out
              (User.password Sample.newcomer_row) SessionUser.empty
              Hvalid Hnone Hhash) as [_ [Hlogin [_ [_ Hrole]]]].
  split; [exact Hlogin | exact Hrole].
Defined.

(** X5 on a platform whose [pbkdf2] always fails. *)
Lemma hashing_failure_propagates_witness :
  let err := mkError "out of memory" in
  @Legacy.loginFn Sample.failing_platform
     (Signin.mk "admin@example.com" "adminpassword") Sample.logged_out
  = (Throw (ErrorExn err), Sample.logged_out)
  /\ @Legacy.signupFn Sample.failing_platform Sample.newcomer Sample.logged_out
     = (Throw (ErrorExn err), Sample.logged_out)
  /\ @Legacy.loginFn Sample.failing_platform
       (Signin.mk "ghost@example.com" "adminpassword") Sample.logged_out
     = (Return (VObj [("error", VBool true);
                      ("userNotFound", VBool true);
                      ("message", VStr "User not found")]), Sample.logged_out).
Proof.
  intros err.
  destruct (@hashing_failure_propagates Sample.failing_platform
              Sample.logged_out err) as [Hlogin [Hsignup Hunknown]].
  split; [|split].
  - apply (Hlogin (Signin.mk "admin@example.com" "adminpassword") Sample.admin);
      reflexivity.
  - apply (Hsignup Sample.newcomer); reflexivity.
  - apply (Hunknown (Signin.mk "ghost@example.com" "adminpassword"));
      reflexivity.
Defined.

(** X6 at a wrong password for the administrator: nothing changes. *)
Lemma login_writes_only_on_match_witness :
  let data := Signin.mk "admin@example.com" "password" in
  users (snd (Current.loginFn data Sample.logged_out)) = users Sample.logged_out
  /\ (snd (Current.loginFn data Sample.logged_out) = Sample.logged_out
      \/ exists u,
          prismaClient.lookup (Signin.email data) (users Sample.logged_out)
          = Some u
          /\ fst (hashPassword (Signin.password data) Sample.logged_out)
             = Return (User.password u)
          /\ snd (Current.loginFn data Sample.logged_out)
             = mkWorld (users Sample.logged_out) (session_of u)).
Proof.
  intros data.
  exact (login_writes_only_on_match data Sample.logged_out Current.loginFn
           (or_introl eq_refl)).
Defined.

(** X7 at the newcomer: the three e-mails stay distinct. *)
Lemma signup_keeps_table_witness :
  NoDup (emails (users Sample.logged_out))
  /\ NoDup (emails (users (snd (Legacy.signupFn Sample.newcomer
                                  Sample.logged_out)))).
Proof.
  assert (Hnodup : NoDup (emails (users Sample.logged_out))).
  { repeat constructor; simpl; intuition discriminate. }
  split; [exact Hnodup|].
  exact (proj2 (signup_keeps_table Sample.newcomer Sample.logged_out
                  Legacy.signupFn (or_intror eq_refl)) Hnodup).
Defined.

(** X8 at the session of the administrator. *)
Lemma session_stays_valid_witness :
  session_valid Sample.logged_in
  /\ session_valid (snd (Current.signupFn Sample.newcomer Sample.logged_in))
  /\ session_valid (snd (Legacy.loginFn (Signin.mk "kim@example.com" "abc")
                           Sample.logged_in)).
Proof.
  assert (Hvalid : session_valid Sample.logged_in).
  { intros _. exists Sample.admin. split; [now left | reflexivity]. }
  destruct (session_stays_valid Sample.logged_in Hvalid)
    as [_ [Hlogin [Hsignup _]]].
  split; [exact Hvalid|]. split; [apply Hsignup | apply Hlogin].
Defined.

(** X9 at the session of the administrator. *)
Lemma probe_agrees_with_strict_witness :
  fst (fetchSessionUser Sample.logged_in) <> Return VNull
  /\ exists user, fst (getCurrentUser Sample.logged_in) = Return user.
Proof.
  assert (Hprobe : fst (fetchSessionUser Sample.logged_in) <> Return VNull)
    by discriminate.
  split; [exact Hprobe|].
  destruct (probe_agrees_with_strict Sample.logged_in) as [_ [_ [_ Hstrict]]].
  exact (Hstrict Hprobe).
Defined.

(** X11 at the stale session: the page is rendered with the 401 data. *)
Lemma home_navigation_witness :
  Router.navigate HomeRoute.loader Sample.logged_out
  = (Redirected (mkRedirect "/" 301), Sample.logged_out)
  /\ exists loaderData,
      HomeRoute.loader Sample.stale = (Return loaderData, Sample.stale)
      /\ Router.navigate HomeRoute.loader Sample.stale
         = (Rendered (Outlet (VObj [("user",
                                     SessionUser.spread (session Sample.stale))])
                             loaderData), Sample.stale).
Proof.
  split.
  - apply (proj1 (home_navigation Sample.logged_out)). reflexivity.
  - apply (proj2 (home_navigation Sample.stale)). reflexivity.
Defined.

(** X12 at the seeded administrator. *)
Lemma login_then_resolvers_witness :
  let data := Signin.mk "admin@example.com" "adminpassword" in
  let w' := snd (Current.loginFn data Sample.logged_out) in
  fetchSessionUser w'
  = (Return (VObj [("email", VStr "admin@example.com");
                   ("role", VStr "admin");
                   ("id", VNum 1)]), w')
  /\ getCurrentUser w'
     = (Return (VObj [("id", VNum 1);
                      ("email", VStr "admin@example.com");
                      ("role", VStr "admin");
                      ("first_name", VStr "Admin");
                      ("last_name", VStr "User")]), w').
Proof.
  intros data w'.
  destruct (login_then_resolvers data Sample.logged_out Sample.admin)
    as [_ [Hprobe Hstrict]];
    [reflexivity | discriminate | reflexivity | reflexivity |].
  split; [exact Hprobe | exact Hstrict].
Defined.

(** X14 from a table that held other users, with the session of one of
    them. *)
Lemma seed_then_login_witness :
  let kim := SessionUser.mk (Some "kim@example.com") (Some "user")
                            (Some (VNum 2)) in
  let seeded := users (snd (Seed.main Sample.logged_out)) in
  seeded = [Sample.admin]
  /\ Current.loginFn (Signin.mk "admin@example.com" "adminpassword")
                     (mkWorld seeded kim)
     = (Return (VObj [("error", VBool false);
                      ("userNotFound", VBool false);
                      ("message", VStr "Logged in")]),
        mkWorld seeded (session_of Sample.admin))
  /\ getCurrentUser (mkWorld seeded kim) = (Return VNull, mkWorld seeded kim).
Proof.
  intros kim seeded.
  destruct (seed_then_login Sample.logged_out (User.password Sample.admin) kim)
    as [Hseeded [Hlogin [_ Hstale]]]; [reflexivity | reflexivity |].
  split; [exact Hseeded|]. split; [exact Hlogin|].
  apply (Hstale "kim@example.com"); [reflexivity | discriminate | discriminate].
Defined.

(** X15 at the administrator's digest. *)
Lemma equal_digests_equal_keys_witness :
  exists key,
    pbkdf2 "adminpassword" "salt" 100000 64 "sha256" = inr key
    /\ User.password Sample.admin = to_hex key.
Proof.
  destruct (equal_digests_equal_keys "adminpassword" "adminpassword"
              (User.password Sample.admin) Sample.logged_out Sample.logged_in)
    as [key [Hkey [_ Hdigest]]]; [reflexivity | reflexivity |].
  exists key. split; [exact Hkey | exact Hdigest].
Defined.

End CoverageRuns.
